(** * WebGL context manager (src/backends/webgl/webgl_context_manager.ts)

    A shallow embedding of the two revisions of the context manager that the
    repository carries: the first one ([Plain]), whose [setContextFactory]
    empties the registry, and the error-checked one ([Checked]), which adds
    [callAndCheck], [checkWebGLError] and [getWebGLErrorMessage].

    The module-level variables [contexts], [contextFactory] and
    [contextCleanup] are the first three fields of [State].  Everything that
    lives outside the module (canvases, the rendering contexts themselves,
    injected callbacks) is an abstract [World] that host calls transform; a
    [trace] records every call on a factory, a cleanup function or a
    rendering context in program order, so that "invoked exactly once" and
    "in this order" are statements about a list.

    What the embedding takes for granted:
    - versions are integers; a version is stored under its decimal string;
    - a callback works on the world only: it does not call back into the
      module (the module is single-threaded and not reentrant);
    - a factory or a cleanup function may throw, the methods of a rendering
      context ([isContextLost], [getError], [disable], [enable], [cullFace])
      and the reads of [ENV] do not;
    - what the first revision writes to the console is not recorded;
    - [getContextByVersion] is recursive with no measure that decreases, so
      it takes a recursion bound and answers [OutOfFuel] when it is reached. *)

From Stdlib Require Import ZArith List.
From stdpp Require Import base strings pretty gmap.
Import ListNotations.
Local Open Scope string_scope.
Local Open Scope Z_scope.

(** ** Values, exceptions, host calls *)

(** A [WebGLRenderingContext] object, by identity. *)
Definition Handle : Type := nat.

(** What a JavaScript [throw] carries. *)
Inductive Exn : Type :=
| JsError (message : string)      (* new Error(message) *)
| TypeError                       (* a method called on undefined *)
| Foreign (tag : nat).            (* any other value thrown by a callback *)

(** Completion of a host callback: normal with a value, or abrupt. *)
Inductive completion (A : Type) : Type :=
| Normal (a : A)
| Abrupt (e : Exn).
Arguments Normal {A} a.
Arguments Abrupt {A} e.

(** Result of running a function of the module: as a completion, plus the
    case where the recursion bound of the embedding was reached. *)
Inductive result (A : Type) : Type :=
| Ret (a : A)
| Throw (e : Exn)
| OutOfFuel.
Arguments Ret {A} a.
Arguments Throw {A} e.
Arguments OutOfFuel {A}.

Definition Factory (World : Type) : Type := Z -> World -> completion Handle * World.
Definition Cleanup (World : Type) : Type := Handle -> World -> completion unit * World.

(** One entry of the trace per call that leaves the module. *)
Inductive Event : Type :=
| EvFactory (version : Z) (r : completion Handle)
| EvCleanup (gl : Handle) (r : completion unit)
| EvIsContextLost (gl : Handle) (lost : bool)
| EvGetError (gl : Handle) (code : Z)
| EvDisable (gl : Handle) (cap : Z)
| EvEnable (gl : Handle) (cap : Z)
| EvCullFace (gl : Handle) (mode : Z).

(** The enum values read off a rendering context ([gl.NO_ERROR], ...). *)
Record GLenum : Type := mkGLenum {
  NO_ERROR : Z;
  INVALID_ENUM : Z;
  INVALID_VALUE : Z;
  INVALID_OPERATION : Z;
  INVALID_FRAMEBUFFER_OPERATION : Z;
  OUT_OF_MEMORY : Z;
  CONTEXT_LOST_WEBGL : Z;
  DEPTH_TEST : Z;
  STENCIL_TEST : Z;
  BLEND : Z;
  DITHER : Z;
  POLYGON_OFFSET_FILL : Z;
  SAMPLE_COVERAGE : Z;
  SCISSOR_TEST : Z;
  CULL_FACE : Z;
  BACK : Z
}.

(** The values the WebGL 1.0 interface definition assigns to them. *)
Definition webgl_enum : GLenum :=
  {| NO_ERROR := 0;
     INVALID_ENUM := 0x0500;
     INVALID_VALUE := 0x0501;
     INVALID_OPERATION := 0x0502;
     INVALID_FRAMEBUFFER_OPERATION := 0x0506;
     OUT_OF_MEMORY := 0x0505;
     CONTEXT_LOST_WEBGL := 0x9242;
     DEPTH_TEST := 0x0B71;
     STENCIL_TEST := 0x0B90;
     BLEND := 0x0BE2;
     DITHER := 0x0BD0;
     POLYGON_OFFSET_FILL := 0x8037;
     SAMPLE_COVERAGE := 0x80A0;
     SCISSOR_TEST := 0x0C11;
     CULL_FACE := 0x0B44;
     BACK := 0x0405 |}.

(** The collaborators the file imports or calls into: [ENV] (pure reads),
    [canvas_util], and the methods of a rendering context. *)
Record Host (World : Type) : Type := mkHost {
  ENV_getBool : string -> bool;
  ENV_getNumber : string -> Z;
  createDOMCanvasWebGLRenderingContext : Factory World;
  cleanupDOMCanvasWebGLRenderingContext : Cleanup World;
  gl_isContextLost : Handle -> World -> bool * World;
  gl_getError : Handle -> World -> Z * World;
  gl_disable : Handle -> Z -> World -> World;
  gl_enable : Handle -> Z -> World -> World;
  gl_cullFace : Handle -> Z -> World -> World;
  gl_enum : GLenum
}.
Arguments ENV_getBool {World} _ _.
Arguments ENV_getNumber {World} _ _.
Arguments createDOMCanvasWebGLRenderingContext {World} _ _ _.
Arguments cleanupDOMCanvasWebGLRenderingContext {World} _ _ _.
Arguments gl_isContextLost {World} _ _ _.
Arguments gl_getError {World} _ _ _.
Arguments gl_disable {World} _ _ _ _.
Arguments gl_enable {World} _ _ _ _.
Arguments gl_cullFace {World} _ _ _ _.
Arguments gl_enum {World} _.

(** ** Module state and the monad of module functions *)

Record State (World : Type) : Type := mkState {
  contexts : gmap string Handle;
  contextFactory : option (Factory World);
  contextCleanup : option (Cleanup World);
  world : World;
  trace : list Event
}.
Arguments mkState {World} _ _ _ _ _.
Arguments contexts {World} _.
Arguments contextFactory {World} _.
Arguments contextCleanup {World} _.
Arguments world {World} _.
Arguments trace {World} _.

(** The property key under which a version is stored: [contexts[version]]
    and [version in contexts] convert the number to its decimal string (no
    such string names a property of [Object.prototype], so [in] sees own
    entries only). *)
Definition key (version : Z) : string := pretty version.

Section Monad.
Context {World : Type}.

Definition M (A : Type) : Type := State World -> result A * State World.

Definition ret {A} (a : A) : M A := fun s => (Ret a, s).
Definition throw {A} (e : Exn) : M A := fun s => (Throw e, s).
Definition out_of_fuel {A} : M A := fun s => (OutOfFuel, s).

Definition bind {A B} (m : M A) (k : A -> M B) : M B := fun s =>
  match m s with
  | (Ret a, s') => k a s'
  | (Throw e, s') => (Throw e, s')
  | (OutOfFuel, s') => (OutOfFuel, s')
  end.

Definition get : M (State World) := fun s => (Ret s, s).

Definition when (b : bool) (m : M unit) : M unit := if b then m else ret tt.

Definition set_contexts (m : gmap string Handle) : M unit := fun s =>
  (Ret tt, mkState m (contextFactory s) (contextCleanup s) (world s) (trace s)).
Definition set_contextFactory (f : option (Factory World)) : M unit := fun s =>
  (Ret tt, mkState (contexts s) f (contextCleanup s) (world s) (trace s)).
Definition set_contextCleanup (c : option (Cleanup World)) : M unit := fun s =>
  (Ret tt, mkState (contexts s) (contextFactory s) c (world s) (trace s)).

(** A host call: the world moves on and the call is appended to the trace. *)
Definition host {A} (w : World) (ev : Event) (a : result A) : M A := fun s =>
  (a, mkState (contexts s) (contextFactory s) (contextCleanup s) w (trace s ++ [ev])).

Definition lift {A} (c : completion A) : result A :=
  match c with Normal a => Ret a | Abrupt e => Throw e end.

Definition call_factory (f : Factory World) (version : Z) : M Handle := fun s =>
  let r := f version (world s) in
  host (snd r) (EvFactory version (fst r)) (lift (fst r)) s.

Definition call_cleanup (c : Cleanup World) (gl : Handle) : M unit := fun s =>
  let r := c gl (world s) in
  host (snd r) (EvCleanup gl (fst r)) (lift (fst r)) s.

(** [contexts[version]] as a receiver or argument; the entry is present at
    every such read of the source, a missing one would surface as a
    [TypeError] at the first method call on it. *)
Definition read_context (version : Z) : M Handle := fun s =>
  match contexts s !! key version with
  | Some gl => (Ret gl, s)
  | None => (Throw TypeError, s)
  end.

(** [contextFactory(version)] is reached only after the null test at the
    top of [getContextByVersion]; calling a null slot would be a
    [TypeError]. *)
Definition read_factory : M (Factory World) := fun s =>
  match contextFactory s with
  | Some f => (Ret f, s)
  | None => (Throw TypeError, s)
  end.
End Monad.

Notation "x <- m ;; k" := (bind m (fun x => k))
  (at level 100, m at next level, right associativity).
Notation "m ;;; k" := (bind m (fun _ => k))
  (at level 100, right associativity).

Section GL.
Context {World : Type} (H : Host World).

Definition isContextLost (gl : Handle) : M bool := fun s =>
  let r := gl_isContextLost H gl (world s) in
  host (snd r) (EvIsContextLost gl (fst r)) (Ret (fst r)) s.

Definition getError (gl : Handle) : M Z := fun s =>
  let r := gl_getError H gl (world s) in
  host (snd r) (EvGetError gl (fst r)) (Ret (fst r)) s.

Definition disable (gl : Handle) (cap : Z) : M unit := fun s =>
  host (gl_disable H gl cap (world s)) (EvDisable gl cap) (Ret tt) s.

Definition enable (gl : Handle) (cap : Z) : M unit := fun s =>
  host (gl_enable H gl cap (world s)) (EvEnable gl cap) (Ret tt) s.

Definition cullFace (gl : Handle) (mode : Z) : M unit := fun s =>
  host (gl_cullFace H gl mode (world s)) (EvCullFace gl mode) (Ret tt) s.
End GL.

(** ** The first revision *)

Module Plain.
Section Defs.
Context {World : Type} (H : Host World).
Let K := gl_enum H.

(** The loop over the old entries only writes to the console. *)
Definition setContextFactory (factory : Factory World) : M unit :=
  set_contextFactory (Some factory) ;;;
  set_contexts ∅.

Definition setContextCleanup (cleanup : Cleanup World) : M unit :=
  set_contextCleanup (Some cleanup).

Definition bootstrapWebGLContext (gl : Handle) : M unit :=
  disable H gl (DEPTH_TEST K) ;;;
  disable H gl (STENCIL_TEST K) ;;;
  disable H gl (BLEND K) ;;;
  disable H gl (DITHER K) ;;;
  disable H gl (POLYGON_OFFSET_FILL K) ;;;
  disable H gl (SAMPLE_COVERAGE K) ;;;
  enable H gl (SCISSOR_TEST K) ;;;
  enable H gl (CULL_FACE K) ;;;
  cullFace H gl (BACK K).

Definition disposeWebGLContext (version : Z) : M unit :=
  s <- get ;;
  match contexts s !! key version with
  | Some _ =>
      match contextCleanup s with
      | None =>
          when (ENV_getBool H "IS_BROWSER")
            (set_contextCleanup (Some (cleanupDOMCanvasWebGLRenderingContext H)))
      | Some _ => ret tt
      end ;;;
      s <- get ;;
      match contextCleanup s with
      | Some cleanup => gl <- read_context version ;; call_cleanup cleanup gl
      | None => ret tt
      end ;;;
      s <- get ;;
      set_contexts (delete (key version) (contexts s))
  | None => ret tt
  end.

Fixpoint getContextByVersion (fuel : nat) (version : Z) : M Handle :=
  match fuel with
  | O => out_of_fuel
  | S fuel' =>
      s <- get ;;
      match contextFactory s with
      | None =>
          if ENV_getBool H "IS_BROWSER"
          then set_contextFactory (Some (createDOMCanvasWebGLRenderingContext H))
          else throw (JsError "Default WebGLRenderingContext factory was not set!")
      | Some _ => ret tt
      end ;;;
      s <- get ;;
      match contexts s !! key version with
      | None =>
          factory <- read_factory ;;
          gl <- call_factory factory version ;;
          s <- get ;;
          set_contexts (<[key version := gl]> (contexts s)) ;;;
          gl <- read_context version ;;
          bootstrapWebGLContext gl
      | Some _ => ret tt
      end ;;;
      gl <- read_context version ;;
      lost <- isContextLost H gl ;;
      (if lost : bool then
         disposeWebGLContext version ;;;
         getContextByVersion fuel' version
       else
         read_context version)
  end.

Definition getActiveContext (fuel : nat) : M Handle :=
  getContextByVersion fuel (ENV_getNumber H "WEBGL_VERSION").

Definition disposeActiveContext : M unit :=
  disposeWebGLContext (ENV_getNumber H "WEBGL_VERSION").
End Defs.
End Plain.

(** ** The error-checked revision *)

Module Checked.
Section Defs.
Context {World : Type} (H : Host World).
Let K := gl_enum H.

(** [status] is an integer here.  The template literal of the default case
    prints a number; for an integer below 2^53 in absolute value that is its
    decimal digits, which is what [pretty] gives.  Beyond that range a
    number is printed rounded or in exponent form, and the digits below are
    not what the code prints. *)
Definition getWebGLErrorMessage (status : Z) : string :=
  if status =? NO_ERROR K then "NO_ERROR"
  else if status =? INVALID_ENUM K then "INVALID_ENUM"
  else if status =? INVALID_VALUE K then "INVALID_VALUE"
  else if status =? INVALID_OPERATION K then "INVALID_OPERATION"
  else if status =? INVALID_FRAMEBUFFER_OPERATION K
    then "INVALID_FRAMEBUFFER_OPERATION"
  else if status =? OUT_OF_MEMORY K then "OUT_OF_MEMORY"
  else if status =? CONTEXT_LOST_WEBGL K then "CONTEXT_LOST_WEBGL"
  else "Unknown error code " +:+ pretty status.

Definition checkWebGLError (gl : Handle) : M unit :=
  error <- getError H gl ;;
  if error =? NO_ERROR K then ret tt
  else throw (JsError ("WebGL Error: " +:+ getWebGLErrorMessage error)).

Definition callAndCheck {T} (gl : Handle) (debugMode : bool) (func : M T) : M T :=
  returnValue <- func ;;
  when debugMode (checkWebGLError gl) ;;;
  ret returnValue.

Definition setContextFactory (factory : Factory World) : M unit :=
  set_contextFactory (Some factory).

Definition setContextCleanup (cleanup : Cleanup World) : M unit :=
  set_contextCleanup (Some cleanup).

Definition bootstrapWebGLContext (gl : Handle) : M unit :=
  callAndCheck gl (ENV_getBool H "DEBUG") (disable H gl (DEPTH_TEST K)) ;;;
  disable H gl (STENCIL_TEST K) ;;;
  disable H gl (BLEND K) ;;;
  disable H gl (DITHER K) ;;;
  disable H gl (POLYGON_OFFSET_FILL K) ;;;
  disable H gl (SAMPLE_COVERAGE K) ;;;
  enable H gl (SCISSOR_TEST K) ;;;
  enable H gl (CULL_FACE K) ;;;
  cullFace H gl (BACK K).

Definition disposeWebGLContext (version : Z) : M unit :=
  s <- get ;;
  match contexts s !! key version with
  | Some _ =>
      match contextCleanup s with
      | None =>
          when (ENV_getBool H "IS_BROWSER")
            (set_contextCleanup (Some (cleanupDOMCanvasWebGLRenderingContext H)))
      | Some _ => ret tt
      end ;;;
      s <- get ;;
      match contextCleanup s with
      | Some cleanup => gl <- read_context version ;; call_cleanup cleanup gl
      | None => ret tt
      end ;;;
      s <- get ;;
      set_contexts (delete (key version) (contexts s))
  | None => ret tt
  end.

Fixpoint getContextByVersion (fuel : nat) (version : Z) : M Handle :=
  match fuel with
  | O => out_of_fuel
  | S fuel' =>
      s <- get ;;
      match contextFactory s with
      | None =>
          if ENV_getBool H "IS_BROWSER"
          then set_contextFactory (Some (createDOMCanvasWebGLRenderingContext H))
          else throw (JsError "Default WebGLRenderingContext factory was not set!")
      | Some _ => ret tt
      end ;;;
      s <- get ;;
      match contexts s !! key version with
      | None =>
          factory <- read_factory ;;
          gl <- call_factory factory version ;;
          s <- get ;;
          set_contexts (<[key version := gl]> (contexts s)) ;;;
          gl <- read_context version ;;
          bootstrapWebGLContext gl ;;;
          gl <- read_context version ;;
          checkWebGLError gl
      | Some _ => ret tt
      end ;;;
      gl <- read_context version ;;
      lost <- isContextLost H gl ;;
      (if lost : bool then
         gl' <- read_context version ;;
         checkWebGLError gl' ;;;
         disposeWebGLContext version ;;;
         getContextByVersion fuel' version
       else
         gl' <- read_context version ;;
         checkWebGLError gl' ;;;
         read_context version)
  end.

Definition getActiveContext (fuel : nat) : M Handle :=
  getContextByVersion fuel (ENV_getNumber H "WEBGL_VERSION").
End Defs.
End Checked.

(** ** Simulated hosts

    [static_host]: the world is the number of contexts made so far, and what
    a context answers to [isContextLost()] and [getError()] is fixed per
    handle, as with hand-written mock contexts.

    [sim_host]: loss and pending errors are part of the world, so that a
    driver event can strike between two calls into the module; [getError()]
    reports a pending code once and clears it, as WebGL does. *)

Definition fresh_factory : Factory nat := fun _ w => (Normal w, S w).
Definition const_factory {World : Type} (gl : Handle) : Factory World :=
  fun _ w => (Normal gl, w).
Definition ok_cleanup {World : Type} : Cleanup World :=
  fun _ w => (Normal tt, w).
Definition failing_cleanup {World : Type} : Cleanup World :=
  fun _ w => (Abrupt (Foreign 0), w).

Definition flags (browser debug : bool) (flag : string) : bool :=
  if String.eqb flag "IS_BROWSER" then browser
  else if String.eqb flag "DEBUG" then debug
  else false.

Definition static_host (browser debug : bool) (lostf : Handle -> bool)
    (errf : Handle -> Z) : Host nat :=
  {| ENV_getBool := flags browser debug;
     ENV_getNumber := fun _ => 1;
     createDOMCanvasWebGLRenderingContext := fresh_factory;
     cleanupDOMCanvasWebGLRenderingContext := ok_cleanup;
     gl_isContextLost := fun gl w => (lostf gl, w);
     gl_getError := fun gl w => (errf gl, w);
     gl_disable := fun _ _ w => w;
     gl_enable := fun _ _ w => w;
     gl_cullFace := fun _ _ w => w;
     gl_enum := webgl_enum |}.

Record Sim : Type := mkSim {
  made : nat;                       (* contexts created so far *)
  lost : list Handle;               (* contexts the driver has taken away *)
  pending : list (Handle * Z)       (* error flags not yet read *)
}.

Definition sim_factory : Factory Sim := fun _ w =>
  (Normal (made w), mkSim (S (made w)) (lost w) (pending w)).

Fixpoint take_pending (gl : Handle) (p : list (Handle * Z))
    : Z * list (Handle * Z) :=
  match p with
  | [] => (0, [])
  | (gl', code) :: p' =>
      if Nat.eqb gl gl' then (code, p')
      else let r := take_pending gl p' in (fst r, (gl', code) :: snd r)
  end.

Definition sim_host (browser debug : bool) : Host Sim :=
  {| ENV_getBool := flags browser debug;
     ENV_getNumber := fun _ => 1;
     createDOMCanvasWebGLRenderingContext := sim_factory;
     cleanupDOMCanvasWebGLRenderingContext := ok_cleanup;
     gl_isContextLost := fun gl w => (existsb (Nat.eqb gl) (lost w), w);
     gl_getError := fun gl w =>
       let r := take_pending gl (pending w) in
       (fst r, mkSim (made w) (lost w) (snd r));
     gl_disable := fun _ _ w => w;
     gl_enable := fun _ _ w => w;
     gl_cullFace := fun _ _ w => w;
     gl_enum := webgl_enum |}.

(** Driver events. *)
Definition lose (gl : Handle) (w : Sim) : Sim :=
  mkSim (made w) (gl :: lost w) (pending w).
Definition raise (gl : Handle) (code : Z) (w : Sim) : Sim :=
  mkSim (made w) (lost w) ((gl, code) :: pending w).

(** Something happening outside the module between two calls into it. *)
Definition outside {World : Type} (ev : World -> World) (s : State World)
    : State World :=
  mkState (contexts s) (contextFactory s) (contextCleanup s) (ev (world s))
    (trace s).

Definition calm : Sim := mkSim 0 [] [].

(** The state of a freshly loaded module. *)
Definition initial {World : Type} (w : World) : State World :=
  mkState ∅ None None w [].

(** ** Scenarios *)

(** A host with every flag off and every context healthy. *)
Definition quiet_host : Host nat :=
  static_host false false (fun _ => false) (fun _ => 0).

(** The same with [DEBUG] on. *)
Definition debug_host : Host nat :=
  static_host false true (fun _ => false) (fun _ => 0).

(** Every context answers "lost", none has an error pending. *)
Definition doomed_host : Host nat :=
  static_host false false (fun _ => true) (fun _ => 0).

Definition sim : Host Sim := sim_host false false.

(** Version 1 cached as context 0 of the simulation, cleanup installed. *)
Definition cached1 : State Sim :=
  snd ((Checked.setContextFactory sim_factory ;;;
        Checked.setContextCleanup ok_cleanup ;;;
        Checked.getContextByVersion sim 1 1) (initial calm)).

(** The same, with a cleanup function that throws. *)
Definition cached1_bad_cleanup : State Sim :=
  snd ((Checked.setContextFactory sim_factory ;;;
        Checked.setContextCleanup failing_cleanup ;;;
        Checked.getContextByVersion sim 1 1) (initial calm)).

Definition faulted : State Sim :=
  outside (raise 0%nat (INVALID_OPERATION webgl_enum)) cached1.

(** A static host after version 1 was requested once. *)
Definition warm : State nat :=
  snd ((Checked.setContextFactory fresh_factory ;;;
        Checked.setContextCleanup ok_cleanup ;;;
        Checked.getContextByVersion quiet_host 1 1) (initial 0%nat)).

(** The events a run appended to the trace of the state it started from. *)
Definition appended {World : Type} (before after : State World) : list Event :=
  skipn (length (trace before)) (trace after).

(** [s] after host calls that left the world at [w] and appended [evs]. *)
Definition advance {World : Type} (s : State World) (w : World)
    (evs : list Event) : State World :=
  mkState (contexts s) (contextFactory s) (contextCleanup s) w (trace s ++ evs).

(** The nine state-setting calls of bootstrap, in source order. *)
Definition state_calls (K : GLenum) (gl : Handle) : list Event :=
  [ EvDisable gl (DEPTH_TEST K); EvDisable gl (STENCIL_TEST K);
    EvDisable gl (BLEND K); EvDisable gl (DITHER K);
    EvDisable gl (POLYGON_OFFSET_FILL K); EvDisable gl (SAMPLE_COVERAGE K);
    EvEnable gl (SCISSOR_TEST K); EvEnable gl (CULL_FACE K);
    EvCullFace gl (BACK K) ].

Definition is_state_call (ev : Event) : bool :=
  match ev with
  | EvDisable _ _ | EvEnable _ _ | EvCullFace _ _ => true
  | _ => false
  end.



(** The world after the eight bootstrap calls that follow the first one. *)
Definition tail_world {World : Type} (H : Host World) (gl : Handle)
    (w : World) : World :=
  let K := gl_enum H in
  gl_cullFace H gl (BACK K)
    (gl_enable H gl (CULL_FACE K)
      (gl_enable H gl (SCISSOR_TEST K)
        (gl_disable H gl (SAMPLE_COVERAGE K)
          (gl_disable H gl (POLYGON_OFFSET_FILL K)
            (gl_disable H gl (DITHER K)
              (gl_disable H gl (BLEND K)
                (gl_disable H gl (STENCIL_TEST K) w))))))).

(** The cleanup function disposal ends up with: the installed one, else the
    canvas one when running in the browser, else none. *)
Definition resolved_cleanup {World : Type} (H : Host World)
    (s : State World) : option (Cleanup World) :=
  match contextCleanup s with
  | Some c => Some c
  | None =>
      if ENV_getBool H "IS_BROWSER"
      then Some (cleanupDOMCanvasWebGLRenderingContext H)
      else None
  end.

(** Likewise for the factory [getContextByVersion] ends up with. *)
Definition resolved_factory {World : Type} (H : Host World)
    (s : State World) : option (Factory World) :=
  match contextFactory s with
  | Some f => Some f
  | None =>
      if ENV_getBool H "IS_BROWSER"
      then Some (createDOMCanvasWebGLRenderingContext H)
      else None
  end.

(** The worlds a context [gl] goes through on the construction path of the
    error-checked [getContextByVersion], the factory having left the world
    at [w1]: after bootstrap; when [isContextLost()] is asked (after the
    error check that follows bootstrap); when the context is returned. *)
Definition bootstrapped {World : Type} (H : Host World) (gl : Handle)
    (w1 : World) : World :=
  let w := gl_disable H gl (DEPTH_TEST (gl_enum H)) w1 in
  tail_world H gl
    (if ENV_getBool H "DEBUG" then snd (gl_getError H gl w) else w).

Definition asked {World : Type} (H : Host World) (gl : Handle)
    (w1 : World) : World :=
  snd (gl_getError H gl (bootstrapped H gl w1)).

Definition settled {World : Type} (H : Host World) (gl : Handle)
    (w1 : World) : World :=
  snd (gl_getError H gl (snd (gl_isContextLost H gl (asked H gl w1)))).

(** What the construction path asks of [gl], each question in the world in
    which the code asks it: no error at the debug-mode check inside
    bootstrap, no error after bootstrap, not lost, no error before the
    return. *)
Definition passes_checks {World : Type} (H : Host World) (gl : Handle)
    (w1 : World) : Prop :=
  (ENV_getBool H "DEBUG" = true ->
   fst (gl_getError H gl (gl_disable H gl (DEPTH_TEST (gl_enum H)) w1))
     = NO_ERROR (gl_enum H)) /\
  fst (gl_getError H gl (bootstrapped H gl w1)) = NO_ERROR (gl_enum H) /\
  fst (gl_isContextLost H gl (asked H gl w1)) = false /\
  fst (gl_getError H gl (snd (gl_isContextLost H gl (asked H gl w1))))
    = NO_ERROR (gl_enum H).

(** The world in which a request for [version] calls the factory, if it
    gets that far: the world it starts in when the version is not cached;
    when it is cached, the world after the cleanup of the cached context,
    provided that context reported itself lost, had no error pending and
    the cleanup function, if any, returned. *)
Definition construction_world {World : Type} (H : Host World) (version : Z)
    (s : State World) : option World :=
  match contexts s !! key version with
  | None => Some (world s)
  | Some gl =>
      let l := gl_isContextLost H gl (world s) in
      let e := gl_getError H gl (snd l) in
      if fst l then
        if fst e =? NO_ERROR (gl_enum H) then
          match resolved_cleanup H s with
          | Some c =>
              match fst (c gl (snd e)) with
              | Normal _ => Some (snd (c gl (snd e)))
              | Abrupt _ => None
              end
          | None => Some (snd e)
          end
        else None
      else None
  end.


(** The host calls bootstrap makes in the error-checked revision when the
    one error check it contains (debug mode only) finds nothing. *)
Definition bootstrap_calls (K : GLenum) (debug : bool) (gl : Handle)
    : list Event :=
  if debug
  then EvDisable gl (DEPTH_TEST K) :: EvGetError gl (NO_ERROR K)
         :: tl (state_calls K gl)
  else state_calls K gl.

(** A computation that only ever appends to the trace. *)
Definition extends {World A : Type} (m : @M World A) : Prop :=
  forall s, exists evs, trace (snd (m s)) = (trace s ++ evs)%list.

(** [m'] does whatever [m] does when [m] does not hit the recursion bound. *)
Definition refines {World A : Type} (m m' : @M World A) : Prop :=
  forall s r s', m s = (r, s') -> r <> OutOfFuel -> m' s = (r, s').

(** The seven codes [getWebGLErrorMessage] has a case for. *)
Definition known_codes (K : GLenum) : list Z :=
  [ NO_ERROR K; INVALID_ENUM K; INVALID_VALUE K; INVALID_OPERATION K;
    INVALID_FRAMEBUFFER_OPERATION K; OUT_OF_MEMORY K; CONTEXT_LOST_WEBGL K ].

(** The error [checkWebGLError] throws for a status. *)
Definition GraphicsError {World : Type} (H : Host World) (status : Z) : Exn :=
  JsError ("WebGL Error: " +:+ Checked.getWebGLErrorMessage H status).

(** The message of the error thrown when no factory can be found. *)
Definition ConfigurationError : Exn :=
  JsError "Default WebGLRenderingContext factory was not set!".

(** ** Scenarios for the properties beyond the claims *)

Definition failing_factory {World : Type} : Factory World :=
  fun _ w => (Abrupt (Foreign 1), w).

(** A static host that runs in the browser. *)
Definition browser_host : Host nat :=
  static_host true false (fun _ => false) (fun _ => 0).

(** The simulation with [DEBUG] on. *)
Definition debug_sim : Host Sim := sim_host false true.

(** A module with the simulation's factory installed, in a world where the
    context about to be made already has [INVALID_ENUM] pending. *)
Definition tainted : State Sim :=
  mkState ∅ (Some sim_factory) None
    (raise 0%nat (INVALID_ENUM webgl_enum) calm) [].

(** Context 0 lost by the driver, with no error left pending. *)
Definition lost_silently : State Sim := outside (lose 0%nat) cached1.

(** A module whose factory throws. *)
Definition unlucky : State nat :=
  snd (Checked.setContextFactory failing_factory (initial 0%nat)).





(** Version 1 cached, and an error pending on the next context to be made. *)
Definition next_faulty : State Sim :=
  outside (raise 1%nat (INVALID_ENUM webgl_enum)) cached1.

(** ** Relations used for the properties beyond the claims *)

(** What a call for [version] leaves alone: the entries of all other
    versions, an installed factory and an installed cleanup function. *)
Definition kept {World : Type} (version : Z) (s s' : State World) : Prop :=
  (forall k, k <> key version -> contexts s' !! k = contexts s !! k) /\
  (forall f, contextFactory s = Some f -> contextFactory s' = Some f) /\
  (forall c, contextCleanup s = Some c -> contextCleanup s' = Some c).

(** A computation that appends to the trace only events [allowed] accepts. *)
Definition emits {World A : Type} (allowed : Event -> bool) (m : @M World A)
    : Prop :=
  forall s, exists evs,
    trace (snd (m s)) = (trace s ++ evs)%list /\ forallb allowed evs = true.

Definition is_getError_call (ev : Event) : bool :=
  match ev with EvGetError _ _ => true | _ => false end.

(** Every event but a factory call for a version other than [version]. *)
Definition factory_for (version : Z) (ev : Event) : bool :=
  match ev with EvFactory v _ => v =? version | _ => true end.

(** ** Monad facts *)

Arguments Checked.checkWebGLError : simpl never.
Arguments Checked.bootstrapWebGLContext : simpl never.
Arguments Checked.disposeWebGLContext : simpl never.
Arguments Checked.getContextByVersion : simpl never.
Arguments Plain.bootstrapWebGLContext : simpl never.
Arguments Plain.disposeWebGLContext : simpl never.
Arguments Plain.getContextByVersion : simpl never.

Section MonadFacts.
Context {World : Type}.
Implicit Types s : State World.

Lemma bind_Ret {A B} (m : M A) (k : A -> M B) s a s' :
  m s = (Ret a, s') -> bind m k s = k a s'.
Proof. intros E. unfold bind. now rewrite E. Qed.

Lemma bind_Throw {A B} (m : M A) (k : A -> M B) s e s' :
  m s = (Throw e, s') -> bind m k s = (Throw e, s').
Proof. intros E. unfold bind. now rewrite E. Qed.

Lemma bind_inv_Ret {A B} (m : M A) (k : A -> M B) s b s' :
  bind m k s = (Ret b, s') ->
  exists a s1, m s = (Ret a, s1) /\ k a s1 = (Ret b, s').
Proof.
  unfold bind. destruct (m s) as [[a|e|] s1]; intros E; try discriminate.
  now exists a, s1.
Qed.

Lemma bind_bind {A B C} (m : M A) (f : A -> M B) (g : B -> M C) s :
  bind (bind m f) g s = bind m (fun a => bind (f a) g) s.
Proof. unfold bind. now destruct (m s) as [[a|e|] s1]. Qed.

Lemma bind_get {B} (k : State World -> M B) s : bind get k s = k s s.
Proof. reflexivity. Qed.

Lemma bind_ret {A B} (a : A) (k : A -> M B) s : bind (ret a) k s = k a s.
Proof. reflexivity. Qed.

Lemma bind_throw {A B} e (k : A -> M B) s : bind (throw e) k s = (Throw e, s).
Proof. reflexivity. Qed.

Lemma bind_set_contexts {B} m (k : unit -> M B) s :
  bind (set_contexts m) k s =
    k tt (mkState m (contextFactory s) (contextCleanup s) (world s) (trace s)).
Proof. reflexivity. Qed.

Lemma bind_set_contextFactory {B} f (k : unit -> M B) s :
  bind (set_contextFactory f) k s =
    k tt (mkState (contexts s) f (contextCleanup s) (world s) (trace s)).
Proof. reflexivity. Qed.

Lemma bind_set_contextCleanup {B} c (k : unit -> M B) s :
  bind (set_contextCleanup c) k s =
    k tt (mkState (contexts s) (contextFactory s) c (world s) (trace s)).
Proof. reflexivity. Qed.

Lemma bind_read_context {B} version gl (k : Handle -> M B) s :
  contexts s !! key version = Some gl ->
  bind (read_context version) k s = k gl s.
Proof. intros E. unfold bind, read_context. now rewrite E. Qed.

Lemma read_context_Some version gl s :
  contexts s !! key version = Some gl -> read_context version s = (Ret gl, s).
Proof. intros E. unfold read_context. now rewrite E. Qed.

Lemma bind_read_factory {B} f (k : Factory World -> M B) s :
  contextFactory s = Some f -> bind read_factory k s = k f s.
Proof. intros E. unfold bind, read_factory. now rewrite E. Qed.

Lemma bind_call_factory {B} f version (k : Handle -> M B) s :
  bind (call_factory f version) k s =
    let r := f version (world s) in
    match fst r with
    | Normal gl => k gl (advance s (snd r) [EvFactory version (Normal gl)])
    | Abrupt e => (Throw e, advance s (snd r) [EvFactory version (Abrupt e)])
    end.
Proof.
  unfold bind, call_factory, host, advance; simpl.
  now destruct (fst (f version (world s))).
Qed.

Lemma bind_call_cleanup {B} c gl (k : unit -> M B) s :
  bind (call_cleanup c gl) k s =
    let r := c gl (world s) in
    match fst r with
    | Normal u => k u (advance s (snd r) [EvCleanup gl (Normal u)])
    | Abrupt e => (Throw e, advance s (snd r) [EvCleanup gl (Abrupt e)])
    end.
Proof.
  unfold bind, call_cleanup, host, advance; simpl.
  now destruct (fst (c gl (world s))).
Qed.

Lemma bind_isContextLost {B} (H : Host World) gl (k : bool -> M B) s :
  bind (isContextLost H gl) k s =
    let r := gl_isContextLost H gl (world s) in
    k (fst r) (advance s (snd r) [EvIsContextLost gl (fst r)]).
Proof. reflexivity. Qed.

Lemma bind_getError {B} (H : Host World) gl (k : Z -> M B) s :
  bind (getError H gl) k s =
    let r := gl_getError H gl (world s) in
    k (fst r) (advance s (snd r) [EvGetError gl (fst r)]).
Proof. reflexivity. Qed.

Lemma bind_disable {B} (H : Host World) gl cap (k : unit -> M B) s :
  bind (disable H gl cap) k s =
    k tt (advance s (gl_disable H gl cap (world s)) [EvDisable gl cap]).
Proof. reflexivity. Qed.

Lemma bind_enable {B} (H : Host World) gl cap (k : unit -> M B) s :
  bind (enable H gl cap) k s =
    k tt (advance s (gl_enable H gl cap (world s)) [EvEnable gl cap]).
Proof. reflexivity. Qed.

Lemma bind_cullFace {B} (H : Host World) gl mode (k : unit -> M B) s :
  bind (cullFace H gl mode) k s =
    k tt (advance s (gl_cullFace H gl mode (world s)) [EvCullFace gl mode]).
Proof. reflexivity. Qed.

Lemma bind_eq {A B} (m : M A) (k : A -> M B) s :
  bind m k s =
    match m s with
    | (Ret a, s') => k a s'
    | (Throw e, s') => (Throw e, s')
    | (OutOfFuel, s') => (OutOfFuel, s')
    end.
Proof. reflexivity. Qed.

Lemma cullFace_run (H : Host World) gl mode s :
  cullFace H gl mode s =
    (Ret tt, advance s (gl_cullFace H gl mode (world s)) [EvCullFace gl mode]).
Proof. reflexivity. Qed.

Lemma advance_advance s w1 evs1 w2 evs2 :
  advance (advance s w1 evs1) w2 evs2 = advance s w2 (evs1 ++ evs2).
Proof. unfold advance; simpl. now rewrite <- app_assoc. Qed.

End MonadFacts.

Section TraceFacts.
Context {World : Type} (H : Host World).

Lemma extends_same {A} (m : @M World A) :
  (forall s, trace (snd (m s)) = trace s) -> extends m.
Proof. intros E s. exists []. now rewrite E, app_nil_r. Qed.

Lemma extends_ret {A} (a : A) : extends (@ret World A a).
Proof. now apply extends_same. Qed.

Lemma extends_throw {A} e : extends (@throw World A e).
Proof. now apply extends_same. Qed.

Lemma extends_out_of_fuel {A} : extends (@out_of_fuel World A).
Proof. now apply extends_same. Qed.

Lemma extends_get : extends (@get World).
Proof. now apply extends_same. Qed.

Lemma extends_set_contexts m : extends (@set_contexts World m).
Proof. now apply extends_same. Qed.

Lemma extends_set_contextFactory f : extends (@set_contextFactory World f).
Proof. now apply extends_same. Qed.

Lemma extends_set_contextCleanup c : extends (@set_contextCleanup World c).
Proof. now apply extends_same. Qed.

Lemma extends_read_context version : extends (@read_context World version).
Proof.
  apply extends_same. intros s. unfold read_context.
  now destruct (contexts s !! key version).
Qed.

Lemma extends_read_factory : extends (@read_factory World).
Proof.
  apply extends_same. intros s. unfold read_factory.
  now destruct (contextFactory s).
Qed.

Lemma extends_call_factory f version : extends (@call_factory World f version).
Proof. intros s. now eexists. Qed.

Lemma extends_call_cleanup c gl : extends (@call_cleanup World c gl).
Proof. intros s. now eexists. Qed.

Lemma extends_isContextLost gl : extends (isContextLost H gl).
Proof. intros s. now eexists. Qed.

Lemma extends_getError gl : extends (getError H gl).
Proof. intros s. now eexists. Qed.

Lemma extends_disable gl cap : extends (disable H gl cap).
Proof. intros s. now eexists. Qed.

Lemma extends_enable gl cap : extends (enable H gl cap).
Proof. intros s. now eexists. Qed.

Lemma extends_cullFace gl mode : extends (cullFace H gl mode).
Proof. intros s. now eexists. Qed.

Lemma extends_bind {A B} (m : M A) (k : A -> @M World B) :
  extends m -> (forall a, extends (k a)) -> extends (bind m k).
Proof.
  intros Hm Hk s. unfold bind. destruct (Hm s) as [evs E].
  destruct (m s) as [[a|e|] s1]; simpl in E.
  - destruct (Hk a s1) as [evs' E']. exists (evs ++ evs')%list.
    now rewrite E', E, app_assoc.
  - now exists evs.
  - now exists evs.
Qed.

Lemma refines_refl {A} (m : @M World A) : refines m m.
Proof. now intros s r s' E _. Qed.

Lemma refines_trans {A} (m1 m2 m3 : @M World A) :
  refines m1 m2 -> refines m2 m3 -> refines m1 m3.
Proof. intros H12 H23 s r s' E Hr. apply H23; [ now apply H12 | exact Hr ]. Qed.

Lemma refines_bind {A B} (m : M A) (k k' : A -> @M World B) :
  (forall a, refines (k a) (k' a)) -> refines (bind m k) (bind m k').
Proof.
  intros Hk s r s'. unfold bind.
  destruct (m s) as [[a|e|] s1]; try tauto. apply Hk.
Qed.
End TraceFacts.

Ltac extends_step :=
  lazymatch goal with
  | |- extends (bind _ _) => apply extends_bind; [ | intros ? ]
  | |- extends (ret _) => apply extends_ret
  | |- extends (throw _) => apply extends_throw
  | |- extends out_of_fuel => apply extends_out_of_fuel
  | |- extends get => apply extends_get
  | |- extends (set_contexts _) => apply extends_set_contexts
  | |- extends (set_contextFactory _) => apply extends_set_contextFactory
  | |- extends (set_contextCleanup _) => apply extends_set_contextCleanup
  | |- extends (read_context _) => apply extends_read_context
  | |- extends read_factory => apply extends_read_factory
  | |- extends (call_factory _ _) => apply extends_call_factory
  | |- extends (call_cleanup _ _) => apply extends_call_cleanup
  | |- extends (isContextLost _ _) => apply extends_isContextLost
  | |- extends (getError _ _) => apply extends_getError
  | |- extends (disable _ _ _) => apply extends_disable
  | |- extends (enable _ _ _) => apply extends_enable
  | |- extends (cullFace _ _ _) => apply extends_cullFace
  | |- extends (when _ _) => unfold when
  | |- extends (match ?x with _ => _ end) => destruct x
  | H : forall _, extends (?f _) |- extends (?f _) => apply H
  | H : forall _ _, extends (?f _ _) |- extends (?f _ _) => apply H
  | H : extends ?m |- extends ?m => exact H
  end.

Ltac extends_tac := repeat extends_step.

(** Symbolic execution of a monadic term applied to a state: expose the
    head of the term, then run one primitive. *)
Ltac msimp :=
  cbv beta zeta;
  cbn [contexts contextFactory contextCleanup world trace advance fst snd
       when lift].

Ltac mstep :=
  first
  [ rewrite bind_bind
  | rewrite bind_get
  | rewrite bind_ret
  | rewrite bind_throw
  | rewrite bind_set_contexts
  | rewrite bind_set_contextFactory
  | rewrite bind_set_contextCleanup
  | rewrite bind_isContextLost
  | rewrite bind_getError
  | rewrite bind_disable
  | rewrite bind_enable
  | rewrite bind_cullFace
  | rewrite bind_call_factory
  | rewrite bind_call_cleanup
  | erewrite bind_read_context
      by (msimp; first [ eassumption | apply lookup_insert_eq ])
  | erewrite bind_read_factory by (msimp; first [ eassumption | reflexivity ])
  | erewrite read_context_Some
      by (msimp; first [ eassumption | apply lookup_insert_eq ]) ];
  msimp.

Ltac mrun := msimp; repeat mstep.

(** Close a goal whose two sides differ only in how the trace is bracketed. *)
Ltac mdone :=
  rewrite ?advance_advance;
  unfold advance;
  cbn [contexts contextFactory contextCleanup world trace app];
  rewrite <- ?app_assoc; reflexivity.

Section PlainFacts.
Context {World : Type} (H : Host World).
Local Abbreviation K := (gl_enum H).
Implicit Types s : State World.

Lemma Plain_getContextByVersion_S fuel version :
  Plain.getContextByVersion H (S fuel) version =
    (s <- get ;;
     match contextFactory s with
     | None =>
         if ENV_getBool H "IS_BROWSER"
         then set_contextFactory (Some (createDOMCanvasWebGLRenderingContext H))
         else throw (JsError "Default WebGLRenderingContext factory was not set!")
     | Some _ => ret tt
     end ;;;
     s <- get ;;
     match contexts s !! key version with
     | None =>
         factory <- read_factory ;;
         gl <- call_factory factory version ;;
         s <- get ;;
         set_contexts (<[key version := gl]> (contexts s)) ;;;
         gl <- read_context version ;;
         Plain.bootstrapWebGLContext H gl
     | Some _ => ret tt
     end ;;;
     gl <- read_context version ;;
     lost <- isContextLost H gl ;;
     (if lost : bool then
        Plain.disposeWebGLContext H version ;;;
        Plain.getContextByVersion H fuel version
      else
        read_context version)).
Proof. reflexivity. Qed.

Lemma Plain_bootstrapWebGLContext_extends gl :
  extends (Plain.bootstrapWebGLContext H gl).
Proof. unfold Plain.bootstrapWebGLContext. extends_tac. Qed.

Lemma Plain_disposeWebGLContext_extends version :
  extends (Plain.disposeWebGLContext H version).
Proof. unfold Plain.disposeWebGLContext. extends_tac. Qed.

Lemma Plain_getContextByVersion_extends fuel version :
  extends (Plain.getContextByVersion H fuel version).
Proof.
  induction fuel as [|fuel IH].
  - apply extends_out_of_fuel.
  - rewrite Plain_getContextByVersion_S.
    pose proof Plain_bootstrapWebGLContext_extends.
    pose proof Plain_disposeWebGLContext_extends.
    extends_tac.
Qed.

(** In the first revision, installing a factory empties the registry, and
    the next request for any version starts by calling that factory. *)
Lemma Plain_setContextFactory_clears f fuel version s :
  let s1 := snd (Plain.setContextFactory f s) in
  contexts s1 = ∅ /\
  contextFactory s1 = Some f /\
  exists evs,
    trace (snd (Plain.getContextByVersion H (S fuel) version s1)) =
      (trace s ++ EvFactory version (fst (f version (world s))) :: evs)%list.
Proof.
  destruct s as [ctx fac cln w tr]. cbn. repeat split.
  rewrite Plain_getContextByVersion_S. mrun. rewrite lookup_empty. mrun.
  destruct (fst (f version w)) as [gl|e]; [ | now exists [] ].
  match goal with
  | |- context [snd (?m ?s)] =>
      assert (Hext : extends m);
      [ | destruct (Hext s) as [evs E]; exists evs; rewrite E ]
  end.
  - pose proof Plain_bootstrapWebGLContext_extends.
    pose proof Plain_disposeWebGLContext_extends.
    pose proof Plain_getContextByVersion_extends.
    extends_tac.
  - msimp. now rewrite <- app_assoc.
Qed.
End PlainFacts.

Section CheckedFacts.
Context {World : Type} (H : Host World).
Local Abbreviation K := (gl_enum H).
Implicit Types s : State World.

Lemma checkWebGLError_run gl s :
  Checked.checkWebGLError H gl s =
    let r := gl_getError H gl (world s) in
    (if fst r =? NO_ERROR K then Ret tt
     else Throw (JsError ("WebGL Error: " +:+ Checked.getWebGLErrorMessage H (fst r))),
     advance s (snd r) [EvGetError gl (fst r)]).
Proof.
  unfold Checked.checkWebGLError, bind, getError, host; simpl.
  destruct (fst (gl_getError H gl (world s)) =? NO_ERROR K); reflexivity.
Qed.

Lemma getContextByVersion_S fuel version :
  Checked.getContextByVersion H (S fuel) version =
    (s <- get ;;
     match contextFactory s with
     | None =>
         if ENV_getBool H "IS_BROWSER"
         then set_contextFactory (Some (createDOMCanvasWebGLRenderingContext H))
         else throw (JsError "Default WebGLRenderingContext factory was not set!")
     | Some _ => ret tt
     end ;;;
     s <- get ;;
     match contexts s !! key version with
     | None =>
         factory <- read_factory ;;
         gl <- call_factory factory version ;;
         s <- get ;;
         set_contexts (<[key version := gl]> (contexts s)) ;;;
         gl <- read_context version ;;
         Checked.bootstrapWebGLContext H gl ;;;
         gl <- read_context version ;;
         Checked.checkWebGLError H gl
     | Some _ => ret tt
     end ;;;
     gl <- read_context version ;;
     lost <- isContextLost H gl ;;
     (if lost : bool then
        gl' <- read_context version ;;
        Checked.checkWebGLError H gl' ;;;
        Checked.disposeWebGLContext H version ;;;
        Checked.getContextByVersion H fuel version
      else
        gl' <- read_context version ;;
        Checked.checkWebGLError H gl' ;;;
        read_context version)).
Proof. reflexivity. Qed.

(** C8 (amended): with pairwise distinct enum values, [NO_ERROR] and each
    of the six error codes are rendered as their symbolic names, and an
    integer status below 2^53 in absolute value that is none of the seven
    known values is rendered as "Unknown error code " followed by its
    decimal digits. *)
Theorem getWebGLErrorMessage_names :
  NoDup (known_codes K) ->
  Checked.getWebGLErrorMessage H (NO_ERROR K) = "NO_ERROR" /\
  Checked.getWebGLErrorMessage H (INVALID_ENUM K) = "INVALID_ENUM" /\
  Checked.getWebGLErrorMessage H (INVALID_VALUE K) = "INVALID_VALUE" /\
  Checked.getWebGLErrorMessage H (INVALID_OPERATION K) = "INVALID_OPERATION" /\
  Checked.getWebGLErrorMessage H (INVALID_FRAMEBUFFER_OPERATION K)
    = "INVALID_FRAMEBUFFER_OPERATION" /\
  Checked.getWebGLErrorMessage H (OUT_OF_MEMORY K) = "OUT_OF_MEMORY" /\
  Checked.getWebGLErrorMessage H (CONTEXT_LOST_WEBGL K) = "CONTEXT_LOST_WEBGL" /\
  forall status : Z,
    - (2 ^ 53) < status < 2 ^ 53 ->
    ~ In status (known_codes K) ->
    Checked.getWebGLErrorMessage H status
      = "Unknown error code " +:+ pretty status.
Proof.
  unfold known_codes. intros ND.
  repeat match goal with
  | ND : NoDup (_ :: _) |- _ =>
      let Hn := fresh "Hn" in
      apply NoDup_cons in ND as [Hn ND];
      rewrite ?not_elem_of_cons in Hn
  end.
  unfold Checked.getWebGLErrorMessage.
  repeat split;
    try (intros status _ Hs; simpl in Hs);
    repeat match goal with
    | |- context [?a =? ?b] =>
        destruct (Z.eqb_spec a b);
        [ first [ reflexivity | exfalso; intuition congruence ] | ]
    end;
    first [ reflexivity | exfalso; intuition congruence ].
Qed.

(** C9: [callAndCheck] runs the operation first.  With [debugMode] false it
    is the operation itself (same result, same final state, nothing added
    to the trace, so it throws exactly when the operation does).  With
    [debugMode] true an operation that returns [r] is followed at once by
    one [getError()]: [NO_ERROR] gives back [r] unchanged, anything else
    throws; an operation that throws is not followed by a check. *)
Theorem callAndCheck_transparent {T} (gl : Handle) (func : M T) s :
  Checked.callAndCheck H gl false func s = func s /\
  (forall debugMode r s',
     Checked.callAndCheck H gl debugMode func s = (Ret r, s') ->
     exists s1, func s = (Ret r, s1)) /\
  (forall r s1, func s = (Ret r, s1) ->
     let e := gl_getError H gl (world s1) in
     Checked.callAndCheck H gl true func s =
       (if fst e =? NO_ERROR K then Ret r else Throw (GraphicsError H (fst e)),
        advance s1 (snd e) [EvGetError gl (fst e)])) /\
  (forall e s1, func s = (Throw e, s1) ->
     Checked.callAndCheck H gl true func s = (Throw e, s1)).
Proof.
  unfold Checked.callAndCheck. repeat split.
  - unfold bind, when, ret. now destruct (func s) as [[r|e|] s1].
  - intros debugMode r s' E.
    apply bind_inv_Ret in E as (a & s1 & Ef & E).
    apply bind_inv_Ret in E as ([] & s2 & _ & E).
    unfold ret in E. injection E as -> ->. now exists s1.
  - intros r s1 Ef. rewrite (bind_Ret _ _ _ _ _ Ef).
    unfold when, bind at 1. rewrite checkWebGLError_run. simpl.
    unfold GraphicsError.
    now destruct (fst (gl_getError H gl (world s1)) =? NO_ERROR K).
  - intros e s1 Ef. now rewrite (bind_Throw _ _ _ _ _ Ef).
Qed.

(** C5: with no factory installed and [IS_BROWSER] false, the call throws
    the configuration error and leaves registry, slots, world and trace as
    they were.  The slot is not all that is read: with [IS_BROWSER] true
    the same call goes on as if the canvas factory had been installed. *)
Theorem getContextByVersion_without_factory fuel version s :
  contextFactory s = None ->
  (ENV_getBool H "IS_BROWSER" = false ->
   Checked.getContextByVersion H (S fuel) version s
     = (Throw ConfigurationError, s)) /\
  (ENV_getBool H "IS_BROWSER" = true ->
   Checked.getContextByVersion H (S fuel) version s
     = Checked.getContextByVersion H (S fuel) version
         (mkState (contexts s)
            (Some (createDOMCanvasWebGLRenderingContext H))
            (contextCleanup s) (world s) (trace s))).
Proof.
  intros Hf. destruct s as [ctx fac cln w tr]; simpl in Hf; subst fac.
  split; intros Hb; rewrite !getContextByVersion_S;
    unfold bind at 1, get at 1; cbn [contextFactory];
    rewrite Hb; reflexivity.
Qed.

Lemma checkWebGLError_extends gl : extends (Checked.checkWebGLError H gl).
Proof.
  unfold Checked.checkWebGLError. apply extends_bind; [ extends_tac | ].
  intros code. destruct (code =? NO_ERROR K); extends_tac.
Qed.

Lemma bootstrapWebGLContext_extends gl :
  extends (Checked.bootstrapWebGLContext H gl).
Proof.
  pose proof checkWebGLError_extends.
  unfold Checked.bootstrapWebGLContext, Checked.callAndCheck. extends_tac.
Qed.

Lemma disposeWebGLContext_extends version :
  extends (Checked.disposeWebGLContext H version).
Proof. unfold Checked.disposeWebGLContext. extends_tac. Qed.

Lemma getContextByVersion_extends fuel version :
  extends (Checked.getContextByVersion H fuel version).
Proof.
  induction fuel as [|fuel IH].
  - apply extends_out_of_fuel.
  - rewrite getContextByVersion_S.
    pose proof checkWebGLError_extends.
    pose proof bootstrapWebGLContext_extends.
    pose proof disposeWebGLContext_extends.
    extends_tac.
Qed.

(** The recursion bound is only a device: a run that ends within the bound
    ends the same way under any larger one. *)
Lemma getContextByVersion_fuel_step fuel : forall version,
  refines (Checked.getContextByVersion H fuel version)
          (Checked.getContextByVersion H (S fuel) version).
Proof.
  induction fuel as [|fuel IH]; intros version.
  - intros s r s' [= <- <-] Hr. now destruct Hr.
  - rewrite (getContextByVersion_S (S fuel)).
    rewrite (getContextByVersion_S fuel) at 1.
    do 6 (apply refines_bind; intros ?).
    match goal with |- refines (if ?b then _ else _) _ => destruct b end;
      [ | apply refines_refl ].
    do 3 (apply refines_bind; intros ?). apply IH.
Qed.

Lemma getContextByVersion_fuel_mono fuel fuel' version :
  (fuel <= fuel')%nat ->
  refines (Checked.getContextByVersion H fuel version)
          (Checked.getContextByVersion H fuel' version).
Proof.
  induction 1 as [|fuel' _ IH]; [ apply refines_refl | ].
  eapply refines_trans; [ exact IH | apply getContextByVersion_fuel_step ].
Qed.

Lemma bind_checkWebGLError {B} gl (k : unit -> M B) s :
  bind (Checked.checkWebGLError H gl) k s =
    let r := gl_getError H gl (world s) in
    if fst r =? NO_ERROR K
    then k tt (advance s (snd r) [EvGetError gl (fst r)])
    else (Throw (GraphicsError H (fst r)),
          advance s (snd r) [EvGetError gl (fst r)]).
Proof.
  rewrite bind_eq, checkWebGLError_run. cbv zeta.
  now destruct (_ =? _).
Qed.

Lemma bootstrapWebGLContext_run gl s :
  Checked.bootstrapWebGLContext H gl s =
    let w1 := gl_disable H gl (DEPTH_TEST K) (world s) in
    if ENV_getBool H "DEBUG" then
      let e := gl_getError H gl w1 in
      if fst e =? NO_ERROR K then
        (Ret tt,
         advance s (tail_world H gl (snd e))
           (EvDisable gl (DEPTH_TEST K) :: EvGetError gl (fst e)
              :: tl (state_calls K gl)))
      else
        (Throw (GraphicsError H (fst e)),
         advance s (snd e)
           [EvDisable gl (DEPTH_TEST K); EvGetError gl (fst e)])
    else
      (Ret tt, advance s (tail_world H gl w1) (state_calls K gl)).
Proof.
  destruct s as [ctx fac cln w tr].
  unfold Checked.bootstrapWebGLContext, Checked.callAndCheck.
  destruct (ENV_getBool H "DEBUG"); mrun.
  - rewrite bind_checkWebGLError; msimp.
    destruct (_ =? _); [ | mdone ].
    mrun. rewrite cullFace_run. msimp. mdone.
  - rewrite cullFace_run. msimp. mdone.
Qed.

Lemma disposeWebGLContext_run version s :
  Checked.disposeWebGLContext H version s =
    match contexts s !! key version with
    | None => (Ret tt, s)
    | Some gl =>
        match resolved_cleanup H s with
        | Some c =>
            let r := c gl (world s) in
            match fst r with
            | Normal _ =>
                (Ret tt,
                 mkState (delete (key version) (contexts s)) (contextFactory s)
                   (Some c) (snd r) (trace s ++ [EvCleanup gl (fst r)]))
            | Abrupt e =>
                (Throw e,
                 mkState (contexts s) (contextFactory s)
                   (Some c) (snd r) (trace s ++ [EvCleanup gl (fst r)]))
            end
        | None =>
            (Ret tt,
             mkState (delete (key version) (contexts s)) (contextFactory s)
               None (world s) (trace s))
        end
    end.
Proof.
  destruct s as [ctx fac cln w tr].
  unfold Checked.disposeWebGLContext, resolved_cleanup. mrun.
  destruct (ctx !! key version) as [gl|] eqn:Hc; [ | reflexivity ].
  destruct cln as [c|]; [ | destruct (ENV_getBool H "IS_BROWSER") ]; mrun;
    try reflexivity;
    match goal with
    | |- context [fst (?c gl w)] =>
        destruct (fst (c gl w)) as [u|e] eqn:Hr; mrun; reflexivity
    end.
Qed.

Lemma bind_disposeWebGLContext {B} version (k : unit -> M B) s gl :
  contexts s !! key version = Some gl ->
  bind (Checked.disposeWebGLContext H version) k s =
    match resolved_cleanup H s with
    | Some c =>
        let r := c gl (world s) in
        match fst r with
        | Normal _ =>
            k tt (mkState (delete (key version) (contexts s)) (contextFactory s)
                    (Some c) (snd r) (trace s ++ [EvCleanup gl (fst r)]))
        | Abrupt e =>
            (Throw e,
             mkState (contexts s) (contextFactory s)
               (Some c) (snd r) (trace s ++ [EvCleanup gl (fst r)]))
        end
    | None =>
        k tt (mkState (delete (key version) (contexts s)) (contextFactory s)
                None (world s) (trace s))
    end.
Proof.
  intros Hc. rewrite bind_eq, disposeWebGLContext_run, Hc.
  destruct (resolved_cleanup H s) as [c|]; [ | reflexivity ].
  cbv zeta. now destruct (fst (c gl (world s))).
Qed.

Lemma getContextByVersion_resolve fuel version s f :
  resolved_factory H s = Some f ->
  Checked.getContextByVersion H (S fuel) version s =
    Checked.getContextByVersion H (S fuel) version
      (mkState (contexts s) (Some f) (contextCleanup s) (world s) (trace s)).
Proof.
  unfold resolved_factory. destruct s as [ctx [f0|] cln w tr]; msimp.
  - now intros [= ->].
  - destruct (ENV_getBool H "IS_BROWSER") eqn:Hb; [ | discriminate ].
    intros [= <-]. rewrite !getContextByVersion_S. mrun. rewrite Hb. now mrun.
Qed.

(** The construction path, when the context the factory hands out passes
    the checks made on it. *)
Lemma getContextByVersion_constructs fuel version s f gl w1 :
  contextFactory s = Some f ->
  contexts s !! key version = None ->
  f version (world s) = (Normal gl, w1) ->
  passes_checks H gl w1 ->
  Checked.getContextByVersion H (S fuel) version s =
    (Ret gl,
     mkState (<[key version := gl]> (contexts s)) (Some f)
       (contextCleanup s) (settled H gl w1)
       (trace s ++ EvFactory version (Normal gl)
          :: bootstrap_calls K (ENV_getBool H "DEBUG") gl
          ++ [EvGetError gl (NO_ERROR K); EvIsContextLost gl false;
              EvGetError gl (NO_ERROR K)])).
Proof.
  intros Hf Hc Hfac Hp. destruct s as [ctx fac cln w tr]; simpl in *; subst fac.
  revert Hp. unfold passes_checks, settled, asked, bootstrapped, bootstrap_calls.
  cbv zeta.
  destruct (ENV_getBool H "DEBUG") eqn:Hd; intros (Hd0 & He1 & Hl & He2);
    rewrite getContextByVersion_S; mrun; rewrite Hc; mrun; rewrite Hfac; mrun;
    rewrite bind_eq, bootstrapWebGLContext_run, Hd; msimp;
    rewrite ?(Hd0 eq_refl), ?Z.eqb_refl; mrun;
    rewrite bind_checkWebGLError; msimp;
    rewrite He1, Z.eqb_refl; mrun;
    rewrite Hl; mrun;
    rewrite bind_checkWebGLError; msimp;
    rewrite He2, Z.eqb_refl; mrun;
    unfold advance; msimp; rewrite <- !app_assoc; reflexivity.
Qed.

Lemma getContextByVersion_cached fuel version s gl f :
  contextFactory s = Some f ->
  contexts s !! key version = Some gl ->
  fst (gl_isContextLost H gl (world s)) = false ->
  Checked.getContextByVersion H (S fuel) version s =
    (let l := gl_isContextLost H gl (world s) in
     let e := gl_getError H gl (snd l) in
     (if fst e =? NO_ERROR K then Ret gl else Throw (GraphicsError H (fst e)),
      advance s (snd e) [EvIsContextLost gl false; EvGetError gl (fst e)])).
Proof.
  intros Hf Hc Hl. destruct s as [ctx fac cln w tr]; simpl in *; subst fac.
  rewrite getContextByVersion_S. mrun. rewrite Hc. mrun. rewrite Hl. mrun.
  rewrite bind_checkWebGLError; msimp.
  destruct (_ =? _); mrun; mdone.
Qed.

(** C7: what bootstrap does on a context.  Without debug mode it issues the
    nine state-setting calls in source order and nothing else.  In debug
    mode the order is the same, and exactly one [getError()] is issued,
    right after the first call ([disable(DEPTH_TEST)]); the eight calls
    after it are not followed by any check. *)
Theorem bootstrapWebGLContext_checks_first_call_only gl s :
  let w1 := gl_disable H gl (DEPTH_TEST K) (world s) in
  (ENV_getBool H "DEBUG" = false ->
   Checked.bootstrapWebGLContext H gl s =
     (Ret tt,
      advance s (tail_world H gl w1)
        [ EvDisable gl (DEPTH_TEST K); EvDisable gl (STENCIL_TEST K);
          EvDisable gl (BLEND K); EvDisable gl (DITHER K);
          EvDisable gl (POLYGON_OFFSET_FILL K);
          EvDisable gl (SAMPLE_COVERAGE K);
          EvEnable gl (SCISSOR_TEST K); EvEnable gl (CULL_FACE K);
          EvCullFace gl (BACK K) ])) /\
  (ENV_getBool H "DEBUG" = true ->
   fst (gl_getError H gl w1) = NO_ERROR K ->
   Checked.bootstrapWebGLContext H gl s =
     (Ret tt,
      advance s (tail_world H gl (snd (gl_getError H gl w1)))
        [ EvDisable gl (DEPTH_TEST K); EvGetError gl (NO_ERROR K);
          EvDisable gl (STENCIL_TEST K);
          EvDisable gl (BLEND K); EvDisable gl (DITHER K);
          EvDisable gl (POLYGON_OFFSET_FILL K);
          EvDisable gl (SAMPLE_COVERAGE K);
          EvEnable gl (SCISSOR_TEST K); EvEnable gl (CULL_FACE K);
          EvCullFace gl (BACK K) ])).
Proof.
  cbv zeta. split.
  - intros Hd. now rewrite bootstrapWebGLContext_run, Hd.
  - intros Hd He. rewrite bootstrapWebGLContext_run, Hd. cbv zeta.
    now rewrite He, Z.eqb_refl.
Qed.

(** C6 (amended): disposing a cached version calls the cleanup function in
    force (the installed one, else the canvas one in the browser) on the
    cached handle.  If that call returns, the entry is removed; with no
    cleanup function at all the entry is removed without any host call; if
    the cleanup function throws, the exception propagates and the entry
    stays in the registry. *)
Theorem disposeWebGLContext_removes_after_cleanup version s gl :
  contexts s !! key version = Some gl ->
  (forall c w', resolved_cleanup H s = Some c ->
     c gl (world s) = (Normal tt, w') ->
     Checked.disposeWebGLContext H version s =
       (Ret tt,
        mkState (delete (key version) (contexts s)) (contextFactory s)
          (Some c) w' (trace s ++ [EvCleanup gl (Normal tt)]))) /\
  (resolved_cleanup H s = None ->
     Checked.disposeWebGLContext H version s =
       (Ret tt,
        mkState (delete (key version) (contexts s)) (contextFactory s)
          None (world s) (trace s))) /\
  (forall c e w', resolved_cleanup H s = Some c ->
     c gl (world s) = (Abrupt e, w') ->
     Checked.disposeWebGLContext H version s =
       (Throw e,
        mkState (contexts s) (contextFactory s)
          (Some c) w' (trace s ++ [EvCleanup gl (Abrupt e)]))).
Proof.
  intros Hc. rewrite disposeWebGLContext_run, Hc. repeat split.
  - intros c w' -> Hr. cbv zeta. now rewrite Hr.
  - now intros ->.
  - intros c e w' -> Hr. cbv zeta. now rewrite Hr.
Qed.


Lemma getContextByVersion_Ret_checked fuel : forall version s gl s',
  Checked.getContextByVersion H fuel version s = (Ret gl, s') ->
  exists evs, trace s' = (evs ++ [EvGetError gl (NO_ERROR K)])%list.
Proof.
  induction fuel as [|fuel IH]; intros version s gl s' E; [ discriminate | ].
  rewrite getContextByVersion_S in E.
  apply bind_inv_Ret in E as (s0 & s1 & _ & E).
  apply bind_inv_Ret in E as (u1 & s2 & _ & E).
  apply bind_inv_Ret in E as (s2' & s3 & _ & E).
  apply bind_inv_Ret in E as (u2 & s4 & _ & E).
  apply bind_inv_Ret in E as (g & s5 & _ & E).
  apply bind_inv_Ret in E as (lost & s6 & _ & E).
  destruct lost.
  - apply bind_inv_Ret in E as (g' & s7 & _ & E).
    apply bind_inv_Ret in E as (u3 & s8 & _ & E).
    apply bind_inv_Ret in E as (u4 & s9 & _ & E).
    now apply IH in E.
  - apply bind_inv_Ret in E as (g' & s7 & Er & E).
    apply bind_inv_Ret in E as (u3 & s8 & Ec & E).
    unfold read_context in Er, E.
    destruct (contexts s6 !! key version) as [g0|] eqn:Hc6; [ | discriminate ].
    injection Er as <- <-.
    rewrite checkWebGLError_run in Ec. cbv zeta in Ec.
    destruct (Z.eqb_spec (fst (gl_getError H g0 (world s6))) (NO_ERROR K))
      as [Heq|]; [ | discriminate ].
    apply (f_equal snd) in Ec. cbn [snd] in Ec. subst s8.
    cbn [advance contexts] in E. rewrite Hc6 in E.
    injection E as <- <-. eexists. cbn [advance trace]. now rewrite Heq.
Qed.

(** C10: the error-checked [getContextByVersion] reads the error state of
    the context whatever the [DEBUG] flag says.  For a cached context the
    read comes right after [isContextLost()], before any disposal or
    return, and a code other than [NO_ERROR] makes the call throw then and
    there.  For a context just constructed the read follows bootstrap, with
    the same effect; if bootstrap itself throws, it is its debug-mode check
    that found a code, and the call throws that error.  And a call that
    returns a context has, as its last host call, a [getError()] on that
    context that reported [NO_ERROR]. *)
Theorem getContextByVersion_always_checks fuel version s f :
  resolved_factory H s = Some f ->
  (forall gl, contexts s !! key version = Some gl ->
     let l := gl_isContextLost H gl (world s) in
     let e := gl_getError H gl (snd l) in
     (exists evs,
        trace (snd (Checked.getContextByVersion H (S fuel) version s)) =
          (trace s ++ EvIsContextLost gl (fst l) :: EvGetError gl (fst e)
             :: evs)%list) /\
     (fst e <> NO_ERROR K ->
      Checked.getContextByVersion H (S fuel) version s =
        (Throw (GraphicsError H (fst e)),
         mkState (contexts s) (Some f) (contextCleanup s) (snd e)
           (trace s ++ [EvIsContextLost gl (fst l); EvGetError gl (fst e)])))) /\
  (forall gl w1 s2,
     contexts s !! key version = None ->
     f version (world s) = (Normal gl, w1) ->
     Checked.bootstrapWebGLContext H gl
       (mkState (<[key version := gl]> (contexts s)) (Some f)
          (contextCleanup s) w1
          (trace s ++ [EvFactory version (Normal gl)])) = (Ret tt, s2) ->
     let e := gl_getError H gl (world s2) in
     (exists evs,
        trace (snd (Checked.getContextByVersion H (S fuel) version s)) =
          (trace s2 ++ EvGetError gl (fst e) :: evs)%list) /\
     (fst e <> NO_ERROR K ->
      Checked.getContextByVersion H (S fuel) version s =
        (Throw (GraphicsError H (fst e)),
         advance s2 (snd e) [EvGetError gl (fst e)]))) /\
  (forall gl w1 e s2,
     contexts s !! key version = None ->
     f version (world s) = (Normal gl, w1) ->
     Checked.bootstrapWebGLContext H gl
       (mkState (<[key version := gl]> (contexts s)) (Some f)
          (contextCleanup s) w1
          (trace s ++ [EvFactory version (Normal gl)])) = (Throw e, s2) ->
     Checked.getContextByVersion H (S fuel) version s = (Throw e, s2) /\
     exists code, code <> NO_ERROR K /\ e = GraphicsError H code) /\
  (forall gl s',
     Checked.getContextByVersion H fuel version s = (Ret gl, s') ->
     exists evs, trace s' = (evs ++ [EvGetError gl (NO_ERROR K)])%list).
Proof.
  intros Hf.
  pose proof checkWebGLError_extends as X1.
  pose proof bootstrapWebGLContext_extends as X2.
  pose proof disposeWebGLContext_extends as X3.
  pose proof getContextByVersion_extends as X4.
  split; [ | split; [ | split; [ | apply getContextByVersion_Ret_checked ] ] ];
    [ | | intros gl w1 e s2 Hc Hfac Hb; split;
          [ rewrite (getContextByVersion_resolve _ _ _ _ Hf); clear Hf;
            destruct s as [ctx fac cln w tr]; simpl in *;
            rewrite getContextByVersion_S; mrun; rewrite Hc; mrun;
            rewrite Hfac; mrun; now rewrite bind_eq, Hb
          | rewrite bootstrapWebGLContext_run in Hb; cbv zeta in Hb;
            destruct (ENV_getBool H "DEBUG"); [ | discriminate ];
            match type of Hb with
            | (if ?a =? ?b then _ else _) = _ =>
                destruct (Z.eqb_spec a b) as [|Hne]; [ discriminate | ];
                injection Hb as <- _; now exists a
            end ] ].
  - intros gl Hc l e. subst l e.
    rewrite (getContextByVersion_resolve _ _ _ _ Hf). clear Hf.
    destruct s as [ctx fac cln w tr]; simpl in *.
    rewrite getContextByVersion_S. mrun. rewrite Hc. mrun.
    destruct (fst (gl_isContextLost H gl w)); mrun;
      rewrite bind_checkWebGLError; msimp;
      (destruct (Z.eqb_spec (fst (gl_getError H gl
                   (snd (gl_isContextLost H gl w)))) (NO_ERROR K)) as [He|He];
       [ split; [ | congruence ]
       | split; [ eexists []; mdone | intros _; mdone ] ]);
      match goal with
      | |- context [snd (?m ?st)] =>
          assert (Hext : extends m) by extends_tac;
          destruct (Hext st) as [evs E]; exists evs; rewrite E; msimp;
          rewrite <- !app_assoc; reflexivity
      end.
  - intros gl w1 s2 Hc Hfac Hb e. subst e.
    rewrite (getContextByVersion_resolve _ _ _ _ Hf). clear Hf.
    destruct s as [ctx fac cln w tr]; simpl in *.
    rewrite getContextByVersion_S. mrun. rewrite Hc. mrun. rewrite Hfac. mrun.
    rewrite bind_eq, Hb.
    assert (Hc2 : contexts s2 !! key version = Some gl).
    { rewrite bootstrapWebGLContext_run in Hb. cbv zeta in Hb.
      repeat match type of Hb with
      | (if ?b then _ else _) = _ => destruct b
      end;
      first [ discriminate | injection Hb as <-; apply lookup_insert_eq ]. }
    msimp. rewrite bind_bind. erewrite bind_read_context by eassumption.
    msimp. rewrite bind_checkWebGLError. msimp.
    destruct (Z.eqb_spec (fst (gl_getError H gl (world s2))) (NO_ERROR K))
      as [He|He];
      [ split; [ | congruence ]
      | split; [ now eexists [] | reflexivity ] ].
    match goal with
    | |- context [snd (?m ?st)] =>
        assert (Hext : extends m) by extends_tac;
        destruct (Hext st) as [evs E]; exists evs; rewrite E; msimp;
        rewrite <- !app_assoc; reflexivity
    end.
Qed.

(** C3 (amended): a cached context that is not lost and whose error check
    reports [NO_ERROR] is returned as it is, and the registry is left
    untouched, so every later call under the same conditions returns the
    identical handle.  A first request for another version does not reuse
    that entry: when the factory returns a context for it and that context
    passes the checks made on it on the way (no error after bootstrap, not
    lost, no error before the return), the request returns that context,
    stores it under its own key, and leaves the first entry in place. *)
Theorem getContextByVersion_caches_per_version fuel s f :
  resolved_factory H s = Some f ->
  (forall version gl w1 w2,
     contexts s !! key version = Some gl ->
     gl_isContextLost H gl (world s) = (false, w1) ->
     gl_getError H gl w1 = (NO_ERROR K, w2) ->
     Checked.getContextByVersion H (S fuel) version s =
       (Ret gl,
        mkState (contexts s) (Some f) (contextCleanup s) w2
          (trace s ++ [EvIsContextLost gl false; EvGetError gl (NO_ERROR K)]))) /\
  (forall v1 v2 gl1 gl2 w1,
     v1 <> v2 ->
     contexts s !! key v1 = Some gl1 ->
     contexts s !! key v2 = None ->
     f v2 (world s) = (Normal gl2, w1) ->
     passes_checks H gl2 w1 ->
     exists s',
       Checked.getContextByVersion H (S fuel) v2 s = (Ret gl2, s') /\
       contexts s' = <[key v2 := gl2]> (contexts s) /\
       key v1 <> key v2 /\
       contexts s' !! key v1 = Some gl1 /\
       contexts s' !! key v2 = Some gl2).
Proof.
  intros Hf. split.
  - intros version gl w1 w2 Hc Hl He.
    rewrite (getContextByVersion_resolve _ _ _ _ Hf).
    erewrite getContextByVersion_cached;
      [ | reflexivity | exact Hc | msimp; now rewrite Hl ].
    msimp. rewrite Hl. msimp. rewrite He. msimp. now rewrite Z.eqb_refl.
  - intros v1 v2 gl1 gl2 w1 Hne Hc1 Hc2 Hfac Hp.
    assert (Hk : key v1 <> key v2).
    { unfold key. intros Hk. now apply (inj pretty) in Hk. }
    rewrite (getContextByVersion_resolve _ _ _ _ Hf).
    rewrite (getContextByVersion_constructs fuel v2
               (mkState (contexts s) (Some f) (contextCleanup s)
                  (world s) (trace s)) f gl2 w1 eq_refl Hc2 Hfac Hp).
    eexists. split; [ reflexivity | ]. msimp.
    split; [ reflexivity | ]. split; [ exact Hk | ]. split.
    + rewrite lookup_insert_ne by congruence. exact Hc1.
    + apply lookup_insert_eq.
Qed.

(** C4 (amended): the two revisions differ.  In the first one
    [setContextFactory(f)] empties the registry, so the next request for
    any version starts by calling [f].  In the error-checked one it only
    replaces the factory: the registry is kept, and a cached context that
    is not lost and has no error pending is returned again without [f]
    being called. *)
Theorem setContextFactory_invalidation fuel version s f :
  (let s1 := snd (Plain.setContextFactory f s) in
   contexts s1 = ∅ /\
   contextFactory s1 = Some f /\
   exists evs,
     trace (snd (Plain.getContextByVersion H (S fuel) version s1)) =
       (trace s ++ EvFactory version (fst (f version (world s))) :: evs)%list) /\
  (forall gl w1 w2,
     contexts s !! key version = Some gl ->
     gl_isContextLost H gl (world s) = (false, w1) ->
     gl_getError H gl w1 = (NO_ERROR K, w2) ->
     let s1 := snd (Checked.setContextFactory f s) in
     contexts s1 = contexts s /\
     Checked.getContextByVersion H (S fuel) version s1 =
       (Ret gl,
        mkState (contexts s) (Some f) (contextCleanup s) w2
          (trace s ++ [EvIsContextLost gl false; EvGetError gl (NO_ERROR K)]))).
Proof.
  split; [ apply Plain_setContextFactory_clears | ].
  intros gl w1 w2 Hc Hl He s1. subst s1. split; [ reflexivity | ].
  cbn [Checked.setContextFactory set_contextFactory snd].
  erewrite getContextByVersion_cached;
    [ | reflexivity | exact Hc | msimp; now rewrite Hl ].
  msimp. rewrite Hl. msimp. rewrite He. msimp. now rewrite Z.eqb_refl.
Qed.

(** When every context reports itself lost and nothing throws, each level
    of the recursion ends in the recursive call. *)
Lemma getContextByVersion_all_lost f version :
  ENV_getBool H "IS_BROWSER" = false ->
  (forall gl w, fst (gl_isContextLost H gl w) = true) ->
  (forall gl w, fst (gl_getError H gl w) = NO_ERROR K) ->
  (forall w, exists gl, fst (f version w) = Normal gl) ->
  forall fuel s,
    contextFactory s = Some f -> contextCleanup s = None ->
    fst (Checked.getContextByVersion H fuel version s) = OutOfFuel.
Proof.
  intros Hb Hlost Herr Hfac.
  induction fuel as [|fuel IH]; intros s Hf Hc; [ reflexivity | ].
  destruct s as [ctx fac cln w tr]; simpl in *; subst fac cln.
  rewrite getContextByVersion_S. mrun.
  destruct (ctx !! key version) as [gl|] eqn:Hctx; mrun.
  - rewrite Hlost. mrun.
    rewrite bind_checkWebGLError. msimp. rewrite Herr, Z.eqb_refl.
    erewrite bind_disposeWebGLContext by (msimp; eassumption).
    unfold resolved_cleanup. msimp. rewrite Hb. now apply IH.
  - destruct (Hfac w) as [gl Hgl]. rewrite Hgl. mrun.
    rewrite bind_eq, bootstrapWebGLContext_run. msimp.
    rewrite !Herr, Z.eqb_refl.
    destruct (ENV_getBool H "DEBUG"); mrun;
      rewrite bind_checkWebGLError; msimp; rewrite Herr, Z.eqb_refl; mrun;
      rewrite Hlost; mrun;
      rewrite bind_checkWebGLError; msimp; rewrite Herr, Z.eqb_refl;
      erewrite bind_disposeWebGLContext by (msimp; apply lookup_insert_eq);
      unfold resolved_cleanup; msimp; rewrite Hb; now apply IH.
Qed.

Lemma disposeWebGLContext_Ret_removes version s s' :
  Checked.disposeWebGLContext H version s = (Ret tt, s') ->
  contexts s' !! key version = None.
Proof.
  rewrite disposeWebGLContext_run.
  destruct (contexts s !! key version) as [gl|] eqn:Hc.
  - destruct (resolved_cleanup H s) as [c|]; cbv zeta;
      [ destruct (fst (c gl (world s))) | ];
      intros E; try discriminate; injection E as <-;
      apply lookup_delete_eq.
  - now intros [= <-].
Qed.

(** On the construction path no retry happens when the context the factory
    builds does not report itself lost when asked: one unit of fuel is as
    good as any. *)
Lemma getContextByVersion_constructs_without_retry fuel fuel' version s f :
  contextFactory s = Some f ->
  contexts s !! key version = None ->
  (forall gl w1, f version (world s) = (Normal gl, w1) ->
     fst (gl_isContextLost H gl (asked H gl w1)) = false) ->
  fst (Checked.getContextByVersion H (S fuel) version s) <> OutOfFuel /\
  Checked.getContextByVersion H (S fuel) version s =
    Checked.getContextByVersion H (S fuel') version s.
Proof.
  intros Hf Hc Hnl. destruct s as [ctx fac cln w tr]; simpl in *; subst fac.
  rewrite !getContextByVersion_S. mrun. rewrite Hc. mrun.
  destruct (f version w) as [[gl|e] w1] eqn:Hfw; msimp; [ | now split ].
  specialize (Hnl gl w1 eq_refl). revert Hnl. unfold asked, bootstrapped.
  cbv zeta.
  mrun. rewrite !(bind_eq (Checked.bootstrapWebGLContext H gl)).
  rewrite bootstrapWebGLContext_run. msimp.
  destruct (ENV_getBool H "DEBUG"); intros Hnl;
    [ destruct (_ =? _); [ | now split ] | ];
    mrun; rewrite !bind_checkWebGLError; msimp;
    (destruct (_ =? _); [ | now split ]);
    mrun; rewrite !Hnl; mrun;
    rewrite !bind_checkWebGLError; msimp;
    (destruct (_ =? _); [ | now split ]);
    mrun; now split.
Qed.

(** C2 (amended): a [disposeWebGLContext] that returns has removed the
    entry, so the retry after a loss goes down the construction path; and
    when the context the factory builds there, if the request gets that
    far, does not report itself lost when the code asks it, the call is over
    after at most that one retry, whatever else the host answers: two
    levels of recursion always suffice. *)
Theorem getContextByVersion_retries_once fuel version s f :
  resolved_factory H s = Some f ->
  (forall w gl w1,
     construction_world H version s = Some w ->
     f version w = (Normal gl, w1) ->
     fst (gl_isContextLost H gl (asked H gl w1)) = false) ->
  (forall s1 s2, Checked.disposeWebGLContext H version s1 = (Ret tt, s2) ->
     contexts s2 !! key version = None) /\
  fst (Checked.getContextByVersion H (S (S fuel)) version s) <> OutOfFuel /\
  Checked.getContextByVersion H (S (S fuel)) version s =
    Checked.getContextByVersion H 2 version s.
Proof.
  intros Hf Hnl. split; [ apply disposeWebGLContext_Ret_removes | ].
  rewrite !(getContextByVersion_resolve _ _ _ _ Hf).
  destruct s as [ctx fac cln w tr]. clear Hf.
  unfold construction_world, resolved_cleanup in Hnl.
  cbn [contexts world contextCleanup] in Hnl. cbv zeta in Hnl. msimp.
  destruct (ctx !! key version) as [gl|] eqn:Hc.
  2: { apply (getContextByVersion_constructs_without_retry _ _ _ _ f);
         [ reflexivity | exact Hc | ].
       intros gl w1. now apply Hnl. }
  rewrite (getContextByVersion_S (S fuel)), (getContextByVersion_S 1).
  mrun. rewrite Hc. mrun.
  destruct (fst (gl_isContextLost H gl w)); mrun;
    rewrite !bind_checkWebGLError; msimp;
    (destruct (_ =? _); [ | now split ]); mrun; [ | now split ].
  erewrite !bind_disposeWebGLContext by (msimp; eassumption).
  unfold resolved_cleanup. msimp.
  destruct cln as [c|]; [ | destruct (ENV_getBool H "IS_BROWSER") ]; msimp;
    try (match goal with
         | |- context [fst (?c gl ?w')] =>
             destruct (fst (c gl w')); [ | now split ]
         end);
    (apply (getContextByVersion_constructs_without_retry _ _ _ _ f);
     [ reflexivity | apply lookup_delete_eq | ];
     intros gl' w1; now apply Hnl).
Qed.
End CheckedFacts.

(** C8, as stated, fails: status 9999 is rendered with the prefix
    "Unknown error code ", not as "unknown code 9999". *)
Lemma getWebGLErrorMessage_9999 :
  Checked.getWebGLErrorMessage quiet_host 9999 = "Unknown error code 9999" /\
  Checked.getWebGLErrorMessage quiet_host 9999 <> "unknown code 9999".
Proof. split; [ reflexivity | discriminate ]. Qed.

(** The WebGL values are pairwise distinct, so the names are as listed. *)
Lemma getWebGLErrorMessage_names_witness :
  NoDup (known_codes (gl_enum quiet_host)) /\
  Checked.getWebGLErrorMessage quiet_host 0 = "NO_ERROR" /\
  Checked.getWebGLErrorMessage quiet_host 0x0500 = "INVALID_ENUM" /\
  (- (2 ^ 53) < 9999 < 2 ^ 53) /\
  Checked.getWebGLErrorMessage quiet_host 9999 = "Unknown error code 9999".
Proof.
  assert (ND : NoDup (known_codes (gl_enum quiet_host))).
  { apply (bool_decide_unpack _). vm_compute. exact I. }
  assert (Hb : - (2 ^ 53) < 9999 < 2 ^ 53) by (split; reflexivity).
  split; [ exact ND | ].
  pose proof (getWebGLErrorMessage_names quiet_host ND)
    as (E0 & E1 & _ & _ & _ & _ & _ & E7).
  split; [ exact E0 | ]. split; [ exact E1 | ]. split; [ exact Hb | ].
  apply (E7 9999 Hb). vm_compute. intuition discriminate.
Defined.

(** ** The theorems at concrete hosts *)



(** C2, as stated, fails: with a factory whose contexts all report
    themselves lost, no recursion bound is large enough for the call to
    finish. *)
Lemma always_lost_retry_diverges :
  ~ exists fuel,
      fst (Checked.getContextByVersion doomed_host fuel 1
             (snd (Checked.setContextFactory fresh_factory (initial 0%nat))))
      <> OutOfFuel.
Proof.
  intros [fuel Hne]. apply Hne.
  apply (getContextByVersion_all_lost doomed_host fresh_factory 1);
    try reflexivity.
  intros w. now exists w.
Qed.

(** The simulation after a silent loss of context 0: the request disposes
    it, retries once and ends within the bound. *)
Lemma getContextByVersion_retries_once_witness :
  resolved_factory sim lost_silently = Some sim_factory /\
  fst (gl_isContextLost sim 0%nat (world lost_silently)) = true /\
  fst (Checked.getContextByVersion sim 5 1 lost_silently) <> OutOfFuel /\
  Checked.getContextByVersion sim 5 1 lost_silently
    = Checked.getContextByVersion sim 2 1 lost_silently.
Proof.
  split; [ reflexivity | ]. split; [ reflexivity | ].
  apply (getContextByVersion_retries_once sim 3 1 lost_silently sim_factory).
  - reflexivity.
  - intros w gl w1 Ew E. vm_compute in Ew. injection Ew as <-.
    vm_compute in E. injection E as <- <-. reflexivity.
Defined.

(** C3, as stated, fails: a factory may hand out one context for two
    versions; a cached context that is neither lost nor disposed is not
    returned when an error is pending on it; and a first request for
    another version throws when the context built for it has an error
    pending. *)
Lemma shared_handle_counterexample :
  fst ((Checked.setContextFactory (const_factory 7%nat) ;;;
        a <- Checked.getContextByVersion quiet_host 1 1 ;;
        b <- Checked.getContextByVersion quiet_host 1 2 ;;
        ret (a, b)) (initial 0%nat)) = Ret (7%nat, 7%nat) /\
  (contexts faulted !! key 1 = Some 0%nat /\
   fst (gl_isContextLost sim 0%nat (world faulted)) = false /\
   fst (Checked.getContextByVersion sim 1 1 faulted)
     = Throw (GraphicsError sim (INVALID_OPERATION webgl_enum))) /\
  (contexts next_faulty !! key 1 = Some 0%nat /\
   contexts next_faulty !! key 2 = None /\
   fst (Checked.getContextByVersion sim 1 2 next_faulty)
     = Throw (GraphicsError sim (INVALID_ENUM webgl_enum))).
Proof. vm_compute. repeat split. Qed.

(** In the simulation, version 1 is served from the cache and version 2 gets
    a context of its own. *)
Lemma getContextByVersion_caches_per_version_witness :
  resolved_factory sim cached1 = Some sim_factory /\
  fst (Checked.getContextByVersion sim 1 1 cached1) = Ret 0%nat /\
  fst (Checked.getContextByVersion sim 1 2 cached1) = Ret 1%nat /\
  contexts (snd (Checked.getContextByVersion sim 1 2 cached1)) !! key 1
    = Some 0%nat.
Proof.
  assert (Hc1 : contexts cached1 !! key 1 = Some 0%nat)
    by (vm_compute; reflexivity).
  assert (Hc2 : contexts cached1 !! key 2 = None) by (vm_compute; reflexivity).
  assert (Hp : passes_checks sim 1%nat (mkSim 2 [] [])).
  { split; [ discriminate | ]. repeat split. }
  split; [ reflexivity | ].
  destruct (getContextByVersion_caches_per_version sim 0 cached1
              sim_factory eq_refl) as [Hsame Hother].
  split.
  - rewrite (Hsame 1 0%nat (mkSim 1 [] []) (mkSim 1 [] []) Hc1 eq_refl eq_refl).
    reflexivity.
  - assert (Hne : (1 <> 2)%Z) by discriminate.
    destruct (Hother 1 2 0%nat 1%nat (mkSim 2 [] []) Hne Hc1 Hc2 eq_refl Hp)
      as (s' & E & _ & _ & E1 & _).
    rewrite E. split; [ reflexivity | exact E1 ].
Defined.

(** C4, as stated, fails in the error-checked revision: after
    [setContextFactory] the cached context is returned again and the new
    factory is not called. *)
Lemma setContextFactory_keeps_cache_counterexample :
  let r := (Checked.setContextFactory (const_factory 9%nat) ;;;
            Checked.getContextByVersion sim 1 1) cached1 in
  contexts cached1 !! key 1 = Some 0%nat /\
  fst r = Ret 0%nat /\
  appended cached1 (snd r)
    = [EvIsContextLost 0%nat false; EvGetError 0%nat 0].
Proof. vm_compute. repeat split. Qed.

(** The two revisions after a factory swap on a warm registry. *)
Lemma setContextFactory_invalidation_witness :
  contexts (snd (Plain.setContextFactory (const_factory 9%nat) warm)) = ∅ /\
  fst (Checked.getContextByVersion quiet_host 1 1
         (snd (Checked.setContextFactory (const_factory 9%nat) warm)))
    = Ret 0%nat.
Proof.
  assert (Hc : contexts warm !! key 1 = Some 0%nat)
    by (vm_compute; reflexivity).
  destruct (setContextFactory_invalidation quiet_host 0 1 warm
              (const_factory 9%nat)) as [(Hclear & _) Hkeep].
  split; [ exact Hclear | ].
  destruct (Hkeep 0%nat 1%nat 1%nat Hc eq_refl eq_refl) as [_ E].
  rewrite E. reflexivity.
Defined.

(** A freshly loaded module outside the browser. *)
Lemma getContextByVersion_without_factory_witness :
  contextFactory (initial 0%nat) = None /\
  ENV_getBool quiet_host "IS_BROWSER" = false /\
  Checked.getContextByVersion quiet_host 1 1 (initial 0%nat)
    = (Throw ConfigurationError, initial 0%nat).
Proof.
  split; [ reflexivity | ]. split; [ reflexivity | ].
  apply (getContextByVersion_without_factory quiet_host 0 1 (initial 0%nat));
    reflexivity.
Defined.

(** C6, as stated, fails: when the cleanup function throws, the entry is
    still in the registry afterwards. *)
Lemma failing_cleanup_keeps_entry :
  let r := Checked.disposeWebGLContext sim 1 cached1_bad_cleanup in
  fst r = Throw (Foreign 0) /\
  contexts (snd r) !! key 1 = Some 0%nat.
Proof. vm_compute. repeat split. Qed.

(** Disposal with a cleanup function that returns. *)
Lemma disposeWebGLContext_removes_after_cleanup_witness :
  contexts warm !! key 1 = Some 0%nat /\
  contexts (snd (Checked.disposeWebGLContext quiet_host 1 warm)) !! key 1 = None.
Proof.
  assert (Hc : contexts warm !! key 1 = Some 0%nat) by (vm_compute; reflexivity).
  split; [ exact Hc | ].
  destruct (disposeWebGLContext_removes_after_cleanup quiet_host 1 warm 0%nat Hc)
    as [Hok _].
  rewrite (Hok ok_cleanup 1%nat eq_refl eq_refl).
  apply lookup_delete_eq.
Defined.

(** In debug mode bootstrap makes a single call that is not a state call. *)
Lemma bootstrapWebGLContext_checks_first_call_only_witness :
  ENV_getBool debug_host "DEBUG" = true /\
  List.filter (fun ev => negb (is_state_call ev))
    (trace (snd (Checked.bootstrapWebGLContext debug_host 0%nat (initial 0%nat))))
    = [EvGetError 0%nat 0].
Proof.
  split; [ reflexivity | ].
  destruct (bootstrapWebGLContext_checks_first_call_only debug_host 0%nat
              (initial 0%nat)) as [_ Hdebug].
  rewrite Hdebug; reflexivity.
Defined.

(** Without debug mode the wrapper is the operation. *)
Lemma callAndCheck_transparent_witness :
  Checked.callAndCheck debug_host 0%nat false
    (disable debug_host 0%nat 0x0B71) (initial 0%nat)
  = disable debug_host 0%nat 0x0B71 (initial 0%nat).
Proof.
  apply (callAndCheck_transparent debug_host 0%nat
           (disable debug_host 0%nat 0x0B71) (initial 0%nat)).
Defined.

(** A pending [INVALID_OPERATION] surfaces although [DEBUG] is off. *)
Lemma getContextByVersion_always_checks_witness :
  resolved_factory sim faulted = Some sim_factory /\
  fst (Checked.getContextByVersion sim 1 1 faulted)
    = Throw (GraphicsError sim (INVALID_OPERATION webgl_enum)).
Proof.
  split; [ reflexivity | ].
  destruct (getContextByVersion_always_checks sim 0 1 faulted sim_factory eq_refl)
    as [Hcached _].
  assert (Hc : contexts faulted !! key 1 = Some 0%nat)
    by (vm_compute; reflexivity).
  assert (Hne : fst (gl_getError sim 0%nat
                       (snd (gl_isContextLost sim 0%nat (world faulted))))
                <> NO_ERROR (gl_enum sim)) by (vm_compute; discriminate).
  destruct (Hcached 0%nat Hc) as [_ Hthrow].
  rewrite (Hthrow Hne). reflexivity.
Defined.

(** ** Further properties of the error-checked revision *)

Section KeptFacts.
Context {World : Type} (H : Host World).
Local Abbreviation K := (gl_enum H).
Implicit Types s : State World.

Lemma kept_refl version s : kept version s s.
Proof. unfold kept. auto. Qed.

Lemma kept_trans version s1 s2 s3 :
  kept version s1 s2 -> kept version s2 s3 -> kept version s1 s3.
Proof.
  intros (A1 & B1 & C1) (A2 & B2 & C2). repeat split.
  - intros k Hk. now rewrite A2, A1.
  - auto.
  - auto.
Qed.
End KeptFacts.

(** One step of a proof by cases over a whole run. *)
Ltac case_step :=
  first
  [ progress mrun
  | rewrite bind_checkWebGLError; msimp
  | rewrite (bind_eq (Checked.bootstrapWebGLContext _ _)),
      bootstrapWebGLContext_run; msimp
  | erewrite bind_disposeWebGLContext
      by (msimp; first [ eassumption | apply lookup_insert_eq ]);
    unfold resolved_cleanup; msimp
  | match goal with
    | |- context [if ?b then _ else _] => destruct b eqn:?
    | |- context [match fst ?p with _ => _ end] => destruct (fst p) eqn:?
    | |- context [match ?o with Some _ => _ | None => _ end] =>
        destruct o eqn:?
    end ].

Ltac kept_now :=
  unfold kept; cbn [snd]; msimp;
  split;
  [ intros ? ?; rewrite ?lookup_delete_ne, ?lookup_insert_ne by congruence;
    reflexivity
  | split; intros ? ?;
    first [ assumption | discriminate | reflexivity
          | subst; simpl in *; congruence ] ].

Section KeptChecked.
Context {World : Type} (H : Host World).
Implicit Types s : State World.

Lemma getContextByVersion_kept fuel : forall version s,
  kept version s (snd (Checked.getContextByVersion H fuel version s)).
Proof.
  induction fuel as [|fuel IH]; intros version s; [ apply kept_refl | ].
  destruct s as [ctx fac cln w tr].
  rewrite getContextByVersion_S.
  repeat case_step.
  all: try kept_now.
  all: match goal with
       | |- kept ?v ?s0 (snd (Checked.getContextByVersion _ _ _ ?s1)) =>
           apply (kept_trans v s0 s1); [ kept_now | apply IH ]
       end.
Qed.
End KeptChecked.

Section CheckedFurther.
Context {World : Type} (H : Host World).
Local Abbreviation K := (gl_enum H).
Implicit Types s : State World.

(** X1: a request for one version, however it ends and however often it
    retries, leaves the entry of every other version as it was. *)
Theorem getContextByVersion_leaves_other_versions fuel version other s :
  other <> version ->
  contexts (snd (Checked.getContextByVersion H fuel version s)) !! key other
    = contexts s !! key other.
Proof.
  intros Hne. apply (getContextByVersion_kept H fuel version s).
  unfold key. intros Hk. now apply (inj pretty) in Hk.
Qed.

(** X2: an installed factory and an installed cleanup function survive every
    request: the canvas defaults are only ever written into an empty slot. *)
Theorem getContextByVersion_keeps_policy fuel version s :
  (forall f, contextFactory s = Some f ->
     contextFactory (snd (Checked.getContextByVersion H fuel version s)) = Some f) /\
  (forall c, contextCleanup s = Some c ->
     contextCleanup (snd (Checked.getContextByVersion H fuel version s)) = Some c).
Proof.
  destruct (getContextByVersion_kept H fuel version s) as (_ & Hfac & Hcln).
  split; [ exact Hfac | exact Hcln ].
Qed.

(** X3: the context a request returns is the one now cached under the version,
    and the last two things asked of it were whether it is lost (no) and
    whether an error is pending (no). *)
Theorem getContextByVersion_returns_cached fuel : forall version s gl s',
  Checked.getContextByVersion H fuel version s = (Ret gl, s') ->
  contexts s' !! key version = Some gl /\
  exists evs,
    trace s' = (evs ++ [EvIsContextLost gl false; EvGetError gl (NO_ERROR K)])%list.
Proof.
  induction fuel as [|fuel IH]; intros version s gl s' E; [ discriminate | ].
  rewrite getContextByVersion_S in E.
  apply bind_inv_Ret in E as (s0 & s1 & _ & E).
  apply bind_inv_Ret in E as (u1 & s2 & _ & E).
  apply bind_inv_Ret in E as (s2' & s3 & _ & E).
  apply bind_inv_Ret in E as (u2 & s4 & _ & E).
  apply bind_inv_Ret in E as (g & s5 & Eg & E).
  apply bind_inv_Ret in E as (lost & s6 & El & E).
  destruct lost.
  - apply bind_inv_Ret in E as (g' & s7 & _ & E).
    apply bind_inv_Ret in E as (u3 & s8 & _ & E).
    apply bind_inv_Ret in E as (u4 & s9 & _ & E).
    now apply IH in E.
  - apply bind_inv_Ret in E as (g' & s7 & Er & E).
    apply bind_inv_Ret in E as (u3 & s8 & Ec & E).
    unfold read_context in Eg, Er, E.
    destruct (contexts s4 !! key version) as [g0|] eqn:Hc4; [ | discriminate ].
    injection Eg as -> ->.
    unfold isContextLost, host in El. cbv zeta in El.
    injection El as Hl <-. cbn [contexts] in Er. rewrite Hc4 in Er.
    injection Er as <- <-.
    rewrite checkWebGLError_run in Ec. cbv zeta in Ec.
    destruct (Z.eqb_spec
                (fst (gl_getError H g
                   (world (mkState (contexts s5) (contextFactory s5)
                             (contextCleanup s5)
                             (snd (gl_isContextLost H g (world s5)))
                             (trace s5 ++
                              [EvIsContextLost g
                                 (fst (gl_isContextLost H g (world s5)))])))))
                (NO_ERROR (gl_enum H))) as [Heq|]; [ | discriminate ].
    apply (f_equal snd) in Ec. cbn [snd] in Ec. subst s8.
    cbn [advance contexts] in E. rewrite Hc4 in E.
    injection E as <- <-. split; [ exact Hc4 | ].
    eexists. cbn [advance trace world] in *. rewrite Heq, Hl.
    rewrite <- app_assoc. reflexivity.
Qed.

(** X4: disposing a version that has no entry does nothing at all: no callback
    runs and not even the default cleanup is resolved; so for
    [disposeActiveContext] of the first revision when the active version has
    no entry.  Hence disposal is idempotent: after a disposal that returned,
    a second one is a no-op. *)
Theorem disposeWebGLContext_idempotent version s :
  (contexts s !! key version = None ->
   Checked.disposeWebGLContext H version s = (Ret tt, s)) /\
  (contexts s !! key (ENV_getNumber H "WEBGL_VERSION") = None ->
   Plain.disposeActiveContext H s = (Ret tt, s)) /\
  (forall s1, Checked.disposeWebGLContext H version s = (Ret tt, s1) ->
   Checked.disposeWebGLContext H version s1 = (Ret tt, s1)).
Proof.
  assert (Hnone : forall v s0, contexts s0 !! key v = None ->
            Checked.disposeWebGLContext H v s0 = (Ret tt, s0)).
  { intros v s0 Hc. now rewrite disposeWebGLContext_run, Hc. }
  split; [ apply Hnone | ]. split; [ apply Hnone | ].
  intros s1 E. apply Hnone. eapply disposeWebGLContext_Ret_removes, E.
Qed.

(** X5: a cleanup function installed with [setContextCleanup] is the one the
    next disposal calls, on the handle cached before the installation,
    whatever was installed earlier and whatever [IS_BROWSER] says. *)
Theorem setContextCleanup_then_dispose version s c gl :
  contexts s !! key version = Some gl ->
  let s1 := snd (Checked.setContextCleanup c s) in
  let r := c gl (world s) in
  contexts s1 = contexts s /\
  Checked.disposeWebGLContext H version s1 =
    match fst r with
    | Normal _ =>
        (Ret tt,
         mkState (delete (key version) (contexts s)) (contextFactory s)
           (Some c) (snd r) (trace s ++ [EvCleanup gl (fst r)]))
    | Abrupt e =>
        (Throw e,
         mkState (contexts s) (contextFactory s)
           (Some c) (snd r) (trace s ++ [EvCleanup gl (fst r)]))
    end.
Proof.
  intros Hc s1 r. subst s1 r. split; [ reflexivity | ].
  rewrite disposeWebGLContext_run.
  cbn [Checked.setContextCleanup set_contextCleanup snd contexts]. now rewrite Hc.
Qed.

(** X6: if the factory throws, the request throws the same value, nothing is
    stored under the version and no call is made on any context. *)
Theorem getContextByVersion_factory_throws fuel version s f e w1 :
  resolved_factory H s = Some f ->
  contexts s !! key version = None ->
  f version (world s) = (Abrupt e, w1) ->
  Checked.getContextByVersion H (S fuel) version s =
    (Throw e,
     mkState (contexts s) (Some f) (contextCleanup s) w1
       (trace s ++ [EvFactory version (Abrupt e)])).
Proof.
  intros Hf Hc Hr. rewrite (getContextByVersion_resolve _ _ _ _ _ Hf).
  destruct s as [ctx fac cln w tr]; simpl in *.
  rewrite getContextByVersion_S. mrun. rewrite Hc. mrun. now rewrite Hr.
Qed.

(** X7: in debug mode, a context whose first bootstrap call leaves an error is
    stored all the same: the request throws after one of the nine state
    calls, and the next request for the version, finding the context cached,
    not lost and free of errors, returns it without issuing the other
    eight. *)
Theorem getContextByVersion_serves_half_bootstrapped
    fuel fuel' version s f gl code w1 w2 w3 w4 :
  ENV_getBool H "DEBUG" = true ->
  resolved_factory H s = Some f ->
  contexts s !! key version = None ->
  f version (world s) = (Normal gl, w1) ->
  gl_getError H gl (gl_disable H gl (DEPTH_TEST K) w1) = (code, w2) ->
  code <> NO_ERROR K ->
  gl_isContextLost H gl w2 = (false, w3) ->
  gl_getError H gl w3 = (NO_ERROR K, w4) ->
  let s1 :=
    mkState (<[key version := gl]> (contexts s)) (Some f) (contextCleanup s) w2
      (trace s ++ [EvFactory version (Normal gl); EvDisable gl (DEPTH_TEST K);
                   EvGetError gl code]) in
  Checked.getContextByVersion H (S fuel) version s
    = (Throw (GraphicsError H code), s1) /\
  Checked.getContextByVersion H (S fuel') version s1
    = (Ret gl,
       mkState (<[key version := gl]> (contexts s)) (Some f) (contextCleanup s)
         w4
         (trace s ++ [EvFactory version (Normal gl); EvDisable gl (DEPTH_TEST K);
                      EvGetError gl code; EvIsContextLost gl false;
                      EvGetError gl (NO_ERROR K)])).
Proof.
  intros Hd Hf Hc Hfac He Hne Hl He2 s1. subst s1. split.
  - rewrite (getContextByVersion_resolve _ _ _ _ _ Hf).
    destruct s as [ctx fac cln w tr]; simpl in *.
    rewrite getContextByVersion_S. mrun. rewrite Hc. mrun. rewrite Hfac. mrun.
    rewrite bind_eq, bootstrapWebGLContext_run, Hd. msimp. rewrite He. msimp.
    apply Z.eqb_neq in Hne. rewrite Hne. mdone.
  - erewrite getContextByVersion_cached;
      [ | reflexivity | apply lookup_insert_eq | msimp; now rewrite Hl ].
    msimp. rewrite Hl. msimp. rewrite He2. msimp. rewrite Z.eqb_refl. mdone.
Qed.
End CheckedFurther.

(** ** What a run never asks of the host *)

Section EmitsFacts.
Context {World : Type} (H : Host World) (allowed : Event -> bool).

Lemma emits_same {A} (m : @M World A) :
  (forall s, trace (snd (m s)) = trace s) -> emits allowed m.
Proof. intros E s. exists []. now rewrite E, app_nil_r. Qed.

Lemma emits_one {A} (m : @M World A) (ev : State World -> Event) :
  (forall s, trace (snd (m s)) = (trace s ++ [ev s])%list) ->
  (forall s, allowed (ev s) = true) -> emits allowed m.
Proof.
  intros E Ha s. exists [ev s]. split; [ apply E | ]. cbn. now rewrite Ha.
Qed.

Lemma emits_bind {A B} (m : M A) (k : A -> @M World B) :
  emits allowed m -> (forall a, emits allowed (k a)) -> emits allowed (bind m k).
Proof.
  intros Hm Hk s. unfold bind. destruct (Hm s) as (evs & E & Ha).
  destruct (m s) as [[a|e|] s1]; simpl in E.
  - destruct (Hk a s1) as (evs' & E' & Ha'). exists (evs ++ evs')%list.
    split; [ now rewrite E', E, app_assoc | ].
    rewrite forallb_app, Ha, Ha'. reflexivity.
  - now exists evs.
  - now exists evs.
Qed.

Lemma emits_ret {A} (a : A) : emits allowed (@ret World A a).
Proof. now apply emits_same. Qed.

Lemma emits_throw {A} e : emits allowed (@throw World A e).
Proof. now apply emits_same. Qed.

Lemma emits_out_of_fuel {A} : emits allowed (@out_of_fuel World A).
Proof. now apply emits_same. Qed.

Lemma emits_get : emits allowed (@get World).
Proof. now apply emits_same. Qed.

Lemma emits_set_contexts m : emits allowed (@set_contexts World m).
Proof. now apply emits_same. Qed.

Lemma emits_set_contextFactory f : emits allowed (@set_contextFactory World f).
Proof. now apply emits_same. Qed.

Lemma emits_set_contextCleanup c : emits allowed (@set_contextCleanup World c).
Proof. now apply emits_same. Qed.

Lemma emits_read_context version : emits allowed (@read_context World version).
Proof.
  apply emits_same. intros s. unfold read_context.
  now destruct (contexts s !! key version).
Qed.

Lemma emits_read_factory : emits allowed (@read_factory World).
Proof.
  apply emits_same. intros s. unfold read_factory.
  now destruct (contextFactory s).
Qed.

Lemma emits_call_factory f version :
  (forall r, allowed (EvFactory version r) = true) ->
  emits allowed (@call_factory World f version).
Proof.
  intros Ha.
  now apply (emits_one _ (fun s => EvFactory version (fst (f version (world s))))).
Qed.

Lemma emits_call_cleanup c gl :
  (forall r, allowed (EvCleanup gl r) = true) ->
  emits allowed (@call_cleanup World c gl).
Proof.
  intros Ha.
  now apply (emits_one _ (fun s => EvCleanup gl (fst (c gl (world s))))).
Qed.

Lemma emits_isContextLost gl :
  (forall b, allowed (EvIsContextLost gl b) = true) ->
  emits allowed (isContextLost H gl).
Proof.
  intros Ha.
  now apply (emits_one _
    (fun s => EvIsContextLost gl (fst (gl_isContextLost H gl (world s))))).
Qed.

Lemma emits_getError gl :
  (forall code, allowed (EvGetError gl code) = true) ->
  emits allowed (getError H gl).
Proof.
  intros Ha.
  now apply (emits_one _
    (fun s => EvGetError gl (fst (gl_getError H gl (world s))))).
Qed.

Lemma emits_disable gl cap :
  allowed (EvDisable gl cap) = true -> emits allowed (disable H gl cap).
Proof. intros Ha. now apply (emits_one _ (fun _ => EvDisable gl cap)). Qed.

Lemma emits_enable gl cap :
  allowed (EvEnable gl cap) = true -> emits allowed (enable H gl cap).
Proof. intros Ha. now apply (emits_one _ (fun _ => EvEnable gl cap)). Qed.

Lemma emits_cullFace gl mode :
  allowed (EvCullFace gl mode) = true -> emits allowed (cullFace H gl mode).
Proof. intros Ha. now apply (emits_one _ (fun _ => EvCullFace gl mode)). Qed.
End EmitsFacts.

Ltac allowed_now :=
  first [ solve [ auto ] | intros; first [ reflexivity | apply Z.eqb_refl ] ].

Ltac emits_step :=
  lazymatch goal with
  | |- emits _ (bind _ _) => apply emits_bind; [ | intros ? ]
  | |- emits _ (ret _) => apply emits_ret
  | |- emits _ (throw _) => apply emits_throw
  | |- emits _ out_of_fuel => apply emits_out_of_fuel
  | |- emits _ get => apply emits_get
  | |- emits _ (set_contexts _) => apply emits_set_contexts
  | |- emits _ (set_contextFactory _) => apply emits_set_contextFactory
  | |- emits _ (set_contextCleanup _) => apply emits_set_contextCleanup
  | |- emits _ (read_context _) => apply emits_read_context
  | |- emits _ read_factory => apply emits_read_factory
  | |- emits _ (call_factory _ _) => apply emits_call_factory; allowed_now
  | |- emits _ (call_cleanup _ _) => apply emits_call_cleanup; allowed_now
  | |- emits _ (isContextLost _ _) => apply emits_isContextLost; allowed_now
  | |- emits _ (getError _ _) => apply emits_getError; allowed_now
  | |- emits _ (disable _ _ _) => apply emits_disable; allowed_now
  | |- emits _ (enable _ _ _) => apply emits_enable; allowed_now
  | |- emits _ (cullFace _ _ _) => apply emits_cullFace; allowed_now
  | |- emits _ (when _ _) => unfold when
  | |- emits _ (match ?x with _ => _ end) => destruct x
  | H : forall _, emits ?a (?f _) |- emits ?a (?f _) => apply H
  | H : forall _ _, emits ?a (?f _ _) |- emits ?a (?f _ _) => apply H
  | H : emits ?a ?m |- emits ?a ?m => exact H
  end.

Ltac emits_tac := repeat emits_step.

Section NeverFacts.
Context {World : Type} (H : Host World).
Local Abbreviation K := (gl_enum H).
Implicit Types s : State World.

Lemma Plain_getContextByVersion_emits allowed version :
  (forall r, allowed (EvFactory version r) = true) ->
  (forall gl r, allowed (EvCleanup gl r) = true) ->
  (forall gl b, allowed (EvIsContextLost gl b) = true) ->
  (forall gl cap, allowed (EvDisable gl cap) = true) ->
  (forall gl cap, allowed (EvEnable gl cap) = true) ->
  (forall gl mode, allowed (EvCullFace gl mode) = true) ->
  forall fuel, emits allowed (Plain.getContextByVersion H fuel version).
Proof.
  intros A1 A2 A3 A4 A5 A6.
  assert (Hb : forall gl, emits allowed (Plain.bootstrapWebGLContext H gl)).
  { intros gl. unfold Plain.bootstrapWebGLContext. emits_tac. }
  assert (Hd : emits allowed (Plain.disposeWebGLContext H version)).
  { unfold Plain.disposeWebGLContext. emits_tac. }
  induction fuel as [|fuel IH]; [ apply emits_out_of_fuel | ].
  rewrite Plain_getContextByVersion_S. emits_tac.
Qed.

Lemma Checked_getContextByVersion_emits allowed version :
  (forall r, allowed (EvFactory version r) = true) ->
  (forall gl r, allowed (EvCleanup gl r) = true) ->
  (forall gl b, allowed (EvIsContextLost gl b) = true) ->
  (forall gl code, allowed (EvGetError gl code) = true) ->
  (forall gl cap, allowed (EvDisable gl cap) = true) ->
  (forall gl cap, allowed (EvEnable gl cap) = true) ->
  (forall gl mode, allowed (EvCullFace gl mode) = true) ->
  forall fuel, emits allowed (Checked.getContextByVersion H fuel version).
Proof.
  intros A1 A2 A3 A4 A5 A6 A7.
  assert (Hc : forall gl, emits allowed (Checked.checkWebGLError H gl)).
  { intros gl. unfold Checked.checkWebGLError.
    apply emits_bind; [ emits_tac | ].
    intros code. destruct (code =? NO_ERROR K); emits_tac. }
  assert (Hb : forall gl, emits allowed (Checked.bootstrapWebGLContext H gl)).
  { intros gl. unfold Checked.bootstrapWebGLContext, Checked.callAndCheck.
    emits_tac. }
  assert (Hd : emits allowed (Checked.disposeWebGLContext H version)).
  { unfold Checked.disposeWebGLContext. emits_tac. }
  induction fuel as [|fuel IH]; [ apply emits_out_of_fuel | ].
  rewrite getContextByVersion_S. emits_tac.
Qed.

(** X11: the first revision never reads the error state of a context: whatever a
    request does, [getError()] is not among the calls it makes. *)
Theorem Plain_getContextByVersion_never_reads_errors fuel version s :
  exists evs,
    trace (snd (Plain.getContextByVersion H fuel version s))
      = (trace s ++ evs)%list /\
    forallb (fun ev => negb (is_getError_call ev)) evs = true.
Proof.
  apply (Plain_getContextByVersion_emits
           (fun ev => negb (is_getError_call ev)) version);
    intros; reflexivity.
Qed.

(** X10: in both revisions a request asks the factory for the requested version
    only, however often it retries. *)
Theorem getContextByVersion_constructs_requested_version_only fuel version s :
  (exists evs,
     trace (snd (Plain.getContextByVersion H fuel version s))
       = (trace s ++ evs)%list /\
     forallb (factory_for version) evs = true) /\
  (exists evs,
     trace (snd (Checked.getContextByVersion H fuel version s))
       = (trace s ++ evs)%list /\
     forallb (factory_for version) evs = true).
Proof.
  split.
  - apply Plain_getContextByVersion_emits; intros; cbn; auto using Z.eqb_refl.
  - apply Checked_getContextByVersion_emits; intros; cbn; auto using Z.eqb_refl.
Qed.

(** X9: distinct statuses are rendered as distinct messages, known or not. *)
Theorem getWebGLErrorMessage_distinct a b :
  a <> b ->
  Checked.getWebGLErrorMessage H a <> Checked.getWebGLErrorMessage H b.
Proof.
  intros Hne E. apply Hne. clear Hne. revert E.
  unfold Checked.getWebGLErrorMessage.
  repeat match goal with
  | |- context [a =? ?c] => destruct (Z.eqb_spec a c)
  end;
  repeat match goal with
  | |- context [b =? ?c] => destruct (Z.eqb_spec b c)
  end;
  intros E; try congruence;
  try (cbn [String.append] in E; discriminate E).
  apply (inj (String.append "Unknown error code ")) in E.
  now apply (inj pretty) in E.
Qed.
End NeverFacts.

(** ** Further properties of the first revision *)

Section PlainRun.
Context {World : Type} (H : Host World).
Implicit Types s : State World.

Lemma Plain_bootstrapWebGLContext_run gl s :
  Plain.bootstrapWebGLContext H gl s =
    (Ret tt,
     advance s
       (tail_world H gl (gl_disable H gl (DEPTH_TEST (gl_enum H)) (world s)))
       (state_calls (gl_enum H) gl)).
Proof.
  destruct s as [ctx fac cln w tr].
  unfold Plain.bootstrapWebGLContext. mrun.
  rewrite cullFace_run. msimp. mdone.
Qed.
End PlainRun.

Ltac plain_case_step :=
  first
  [ progress mrun
  | rewrite (bind_eq (Plain.bootstrapWebGLContext _ _)),
      Plain_bootstrapWebGLContext_run; msimp
  | progress change (@Plain.disposeWebGLContext) with (@Checked.disposeWebGLContext)
  | erewrite bind_disposeWebGLContext
      by (msimp; first [ eassumption | apply lookup_insert_eq ]);
    unfold resolved_cleanup; msimp
  | match goal with
    | |- context [if ?b then _ else _] => destruct b eqn:?
    | |- context [match fst ?p with _ => _ end] => destruct (fst p) eqn:?
    | |- context [match ?o with Some _ => _ | None => _ end] =>
        destruct o eqn:?
    end ].

Section PlainFurther.
Context {World : Type} (H : Host World).
Local Abbreviation K := (gl_enum H).
Implicit Types s : State World.

Lemma Plain_getContextByVersion_kept fuel : forall version s,
  kept version s (snd (Plain.getContextByVersion H fuel version s)).
Proof.
  induction fuel as [|fuel IH]; intros version s; [ apply kept_refl | ].
  destruct s as [ctx fac cln w tr].
  rewrite Plain_getContextByVersion_S.
  repeat plain_case_step.
  all: try kept_now.
  all: match goal with
       | |- kept ?v ?s0 (snd (Plain.getContextByVersion _ _ _ ?s1)) =>
           apply (kept_trans v s0 s1); [ kept_now | apply IH ]
       end.
Qed.

(** X12: the first revision, too, leaves the entries of other versions and an
    installed factory or cleanup function untouched, however a request
    ends. *)
Theorem Plain_getContextByVersion_frame fuel version other s :
  other <> version ->
  contexts (snd (Plain.getContextByVersion H fuel version s)) !! key other
    = contexts s !! key other /\
  (forall f, contextFactory s = Some f ->
     contextFactory (snd (Plain.getContextByVersion H fuel version s)) = Some f) /\
  (forall c, contextCleanup s = Some c ->
     contextCleanup (snd (Plain.getContextByVersion H fuel version s)) = Some c).
Proof.
  intros Hne. destruct (Plain_getContextByVersion_kept fuel version s)
    as (A & B & C).
  split; [ | now split ].
  apply A. unfold key. intros Hk. now apply (inj pretty) in Hk.
Qed.

(** X14: recovery in the first revision: a cached context that reports itself
    lost is handed to the cleanup function, a new one is built and
    bootstrapped, and when that one is not lost it is stored and returned.
    The error state of neither context is consulted. *)
Theorem Plain_getContextByVersion_recovers
    fuel version s f c gl gl' w1 w2 w3 w4 :
  contextFactory s = Some f ->
  resolved_cleanup H s = Some c ->
  contexts s !! key version = Some gl ->
  gl_isContextLost H gl (world s) = (true, w1) ->
  c gl w1 = (Normal tt, w2) ->
  f version w2 = (Normal gl', w3) ->
  gl_isContextLost H gl'
    (tail_world H gl' (gl_disable H gl' (DEPTH_TEST K) w3)) = (false, w4) ->
  Plain.getContextByVersion H (S (S fuel)) version s =
    (Ret gl',
     mkState (<[key version := gl']> (contexts s)) (Some f) (Some c) w4
       (trace s ++
        [EvIsContextLost gl true; EvCleanup gl (Normal tt);
         EvFactory version (Normal gl')]
        ++ state_calls K gl' ++ [EvIsContextLost gl' false])%list).
Proof.
  intros Hf Hcl Hc Hl Hcln Hfac Hl'.
  destruct s as [ctx fac cln w tr]; simpl in *; subst fac.
  rewrite (Plain_getContextByVersion_S H (S fuel)). mrun. rewrite Hc. mrun.
  rewrite Hl. mrun.
  change (@Plain.disposeWebGLContext) with (@Checked.disposeWebGLContext).
  erewrite bind_disposeWebGLContext by (msimp; eassumption).
  unfold resolved_cleanup in Hcl |- *. msimp. cbn [contextCleanup] in Hcl.
  rewrite Hcl. msimp. rewrite Hcln. msimp.
  rewrite Plain_getContextByVersion_S. mrun. rewrite lookup_delete_eq. mrun.
  rewrite Hfac. mrun.
  rewrite bind_eq, Plain_bootstrapWebGLContext_run. mrun.
  rewrite Hl'. mrun.
  rewrite insert_delete_eq. unfold advance. msimp.
  rewrite <- !app_assoc. reflexivity.
Qed.

Lemma Plain_getContextByVersion_Ret_cached fuel : forall version s gl s',
  Plain.getContextByVersion H fuel version s = (Ret gl, s') ->
  contexts s' !! key version = Some gl /\
  exists evs, trace s' = (evs ++ [EvIsContextLost gl false])%list.
Proof.
  induction fuel as [|fuel IH]; intros version s gl s' E; [ discriminate | ].
  rewrite Plain_getContextByVersion_S in E.
  apply bind_inv_Ret in E as (s0 & s1 & _ & E).
  apply bind_inv_Ret in E as (u1 & s2 & _ & E).
  apply bind_inv_Ret in E as (s2' & s3 & _ & E).
  apply bind_inv_Ret in E as (u2 & s4 & _ & E).
  apply bind_inv_Ret in E as (g & s5 & Eg & E).
  apply bind_inv_Ret in E as (lost & s6 & El & E).
  destruct lost.
  - apply bind_inv_Ret in E as (u3 & s7 & _ & E). now apply IH in E.
  - unfold read_context in Eg, E.
    destruct (contexts s4 !! key version) as [g0|] eqn:Hc4; [ | discriminate ].
    injection Eg as -> ->.
    unfold isContextLost, host in El. cbv zeta in El.
    injection El as Hl <-. cbn [contexts] in E. rewrite Hc4 in E.
    injection E as <- <-. split; [ exact Hc4 | ].
    eexists. cbn [trace]. now rewrite Hl.
Qed.

(** X13: the context a request of the first revision returns is the one now
    cached under the version, and the last thing asked of it was whether it
    is lost (no). *)
Theorem Plain_getContextByVersion_returns_cached fuel version s gl s' :
  Plain.getContextByVersion H fuel version s = (Ret gl, s') ->
  contexts s' !! key version = Some gl /\
  exists evs, trace s' = (evs ++ [EvIsContextLost gl false])%list.
Proof.
  intros E. exact (Plain_getContextByVersion_Ret_cached fuel version s gl s' E).
Qed.

(** X17: [getActiveContext] then [disposeActiveContext]: the cleanup function in
    force is called on exactly the context that was handed out, and when it
    returns the active version has no entry left. *)
Theorem getActiveContext_then_dispose fuel s gl s1 c w' :
  Plain.getActiveContext H fuel s = (Ret gl, s1) ->
  resolved_cleanup H s1 = Some c ->
  c gl (world s1) = (Normal tt, w') ->
  Plain.disposeActiveContext H s1 =
    (Ret tt,
     mkState (delete (key (ENV_getNumber H "WEBGL_VERSION")) (contexts s1))
       (contextFactory s1) (Some c) w'
       (trace s1 ++ [EvCleanup gl (Normal tt)])) /\
  contexts (snd (Plain.disposeActiveContext H s1))
    !! key (ENV_getNumber H "WEBGL_VERSION") = None.
Proof.
  unfold Plain.getActiveContext, Plain.disposeActiveContext.
  intros E Hc Hr. apply Plain_getContextByVersion_Ret_cached in E as [Hctx _].
  change (@Plain.disposeWebGLContext) with (@Checked.disposeWebGLContext).
  rewrite disposeWebGLContext_run, Hctx, Hc. cbv zeta. rewrite Hr.
  split; [ reflexivity | apply lookup_delete_eq ].
Qed.


(** X15: if the factory throws in the first revision, the request throws the
    same value and the registry is as before. *)
Theorem Plain_getContextByVersion_factory_throws fuel version s f e w1 :
  contextFactory s = Some f ->
  contexts s !! key version = None ->
  f version (world s) = (Abrupt e, w1) ->
  Plain.getContextByVersion H (S fuel) version s =
    (Throw e,
     mkState (contexts s) (Some f) (contextCleanup s) w1
       (trace s ++ [EvFactory version (Abrupt e)])).
Proof.
  intros Hf Hc Hr. destruct s as [ctx fac cln w tr]; simpl in *; subst fac.
  rewrite Plain_getContextByVersion_S. mrun. rewrite Hc. mrun. now rewrite Hr.
Qed.
End PlainFurther.

(** ** The canvas defaults *)

Section DefaultFacts.
Context {World : Type} (H : Host World).
Implicit Types s : State World.

(** X8: in the browser the canvas defaults are written into an empty slot the
    first time they are needed and stay there: a request leaves the canvas
    factory installed however it ends, and a disposal of a cached version
    leaves the canvas cleanup installed even when that cleanup throws. *)
Theorem defaults_are_installed_on_first_use fuel version s :
  ENV_getBool H "IS_BROWSER" = true ->
  (contextFactory s = None ->
   contextFactory (snd (Checked.getContextByVersion H (S fuel) version s))
     = Some (createDOMCanvasWebGLRenderingContext H)) /\
  (contextCleanup s = None ->
   is_Some (contexts s !! key version) ->
   contextCleanup (snd (Checked.disposeWebGLContext H version s))
     = Some (cleanupDOMCanvasWebGLRenderingContext H)).
Proof.
  intros Hb. split.
  - intros Hf.
    rewrite (getContextByVersion_resolve H fuel version s
               (createDOMCanvasWebGLRenderingContext H))
      by (unfold resolved_factory; now rewrite Hf, Hb).
    now apply (getContextByVersion_kept H (S fuel) version).
  - intros Hc [gl Hgl]. rewrite disposeWebGLContext_run, Hgl.
    unfold resolved_cleanup. rewrite Hc, Hb. cbv zeta.
    now destruct (fst (cleanupDOMCanvasWebGLRenderingContext H gl (world s))).
Qed.
End DefaultFacts.

(** ** The further properties at concrete hosts *)

(** Requesting version 2 leaves the entry of version 1. *)
Lemma getContextByVersion_leaves_other_versions_witness :
  (1 <> 2)%Z /\
  contexts (snd (Checked.getContextByVersion quiet_host 3 2 warm)) !! key 1
    = Some 0%nat.
Proof.
  assert (Hne : (1 <> 2)%Z) by discriminate.
  split; [ exact Hne | ].
  etransitivity;
    [ exact (getContextByVersion_leaves_other_versions quiet_host 3 2 1 warm Hne)
    | vm_compute; reflexivity ].
Defined.

(** The policy of a warm module is still there after another request. *)
Lemma getContextByVersion_keeps_policy_witness :
  contextFactory warm = Some fresh_factory /\
  contextFactory (snd (Checked.getContextByVersion quiet_host 3 2 warm))
    = Some fresh_factory.
Proof.
  split; [ reflexivity | ].
  apply (getContextByVersion_keeps_policy quiet_host 3 2 warm). reflexivity.
Defined.

(** The context returned on a warm module is the cached one. *)
Lemma getContextByVersion_returns_cached_witness :
  fst (Checked.getContextByVersion quiet_host 1 1 warm) = Ret 0%nat /\
  contexts (snd (Checked.getContextByVersion quiet_host 1 1 warm)) !! key 1
    = Some 0%nat.
Proof.
  assert (E : Checked.getContextByVersion quiet_host 1 1 warm
              = (Ret 0%nat, snd (Checked.getContextByVersion quiet_host 1 1 warm)))
    by (vm_compute; reflexivity).
  split; [ now rewrite E | ].
  apply (getContextByVersion_returns_cached quiet_host 1 1 warm 0%nat _ E).
Defined.

(** Handing out the active context and disposing it again. *)
Lemma getActiveContext_then_dispose_witness :
  fst (Plain.getActiveContext quiet_host 1 warm) = Ret 0%nat /\
  contexts
    (snd (Plain.disposeActiveContext quiet_host
            (snd (Plain.getActiveContext quiet_host 1 warm)))) !! key 1
    = None.
Proof.
  assert (E : Plain.getActiveContext quiet_host 1 warm
              = (Ret 0%nat, snd (Plain.getActiveContext quiet_host 1 warm)))
    by (vm_compute; reflexivity).
  split; [ now rewrite E | ].
  apply (getActiveContext_then_dispose quiet_host 1 warm 0%nat _
           ok_cleanup 1%nat E eq_refl eq_refl).
Defined.

(** The context the first revision returns on a warm module is the cached
    one. *)
Lemma Plain_getContextByVersion_returns_cached_witness :
  fst (Plain.getContextByVersion quiet_host 1 1 warm) = Ret 0%nat /\
  contexts (snd (Plain.getContextByVersion quiet_host 1 1 warm)) !! key 1
    = Some 0%nat.
Proof.
  assert (E : Plain.getContextByVersion quiet_host 1 1 warm
              = (Ret 0%nat, snd (Plain.getContextByVersion quiet_host 1 1 warm)))
    by (vm_compute; reflexivity).
  split; [ now rewrite E | ].
  apply (Plain_getContextByVersion_returns_cached quiet_host 1 1 warm 0%nat _ E).
Defined.

(** Disposing twice on a warm module. *)
Lemma disposeWebGLContext_idempotent_witness :
  fst (Checked.disposeWebGLContext quiet_host 1 warm) = Ret tt /\
  Checked.disposeWebGLContext quiet_host 1
    (snd (Checked.disposeWebGLContext quiet_host 1 warm))
  = (Ret tt, snd (Checked.disposeWebGLContext quiet_host 1 warm)).
Proof.
  assert (E : Checked.disposeWebGLContext quiet_host 1 warm
              = (Ret tt, snd (Checked.disposeWebGLContext quiet_host 1 warm)))
    by (vm_compute; reflexivity).
  split; [ now rewrite E | ].
  apply (disposeWebGLContext_idempotent quiet_host 1 warm). exact E.
Defined.

(** A throwing cleanup installed on a warm module is the one disposal calls. *)
Lemma setContextCleanup_then_dispose_witness :
  contexts warm !! key 1 = Some 0%nat /\
  fst (Checked.disposeWebGLContext quiet_host 1
         (snd (Checked.setContextCleanup failing_cleanup warm)))
    = Throw (Foreign 0).
Proof.
  assert (Hc : contexts warm !! key 1 = Some 0%nat)
    by (vm_compute; reflexivity).
  split; [ exact Hc | ].
  destruct (setContextCleanup_then_dispose quiet_host 1 warm failing_cleanup
              0%nat Hc) as [_ E].
  rewrite E. reflexivity.
Defined.

(** A factory that throws, on an empty registry. *)
Lemma getContextByVersion_factory_throws_witness :
  resolved_factory quiet_host unlucky = Some failing_factory /\
  fst (Checked.getContextByVersion quiet_host 1 1 unlucky) = Throw (Foreign 1) /\
  contexts (snd (Checked.getContextByVersion quiet_host 1 1 unlucky)) = ∅.
Proof.
  split; [ reflexivity | ].
  rewrite (getContextByVersion_factory_throws quiet_host 0 1 unlucky
             failing_factory (Foreign 1) 0%nat eq_refl eq_refl eq_refl).
  split; reflexivity.
Defined.

(** The context made with [INVALID_ENUM] pending is served by the second
    request. *)
Lemma getContextByVersion_serves_half_bootstrapped_witness :
  ENV_getBool debug_sim "DEBUG" = true /\
  fst (Checked.getContextByVersion debug_sim 1 1 tainted)
    = Throw (GraphicsError debug_sim (INVALID_ENUM webgl_enum)) /\
  fst (Checked.getContextByVersion debug_sim 1 1
         (snd (Checked.getContextByVersion debug_sim 1 1 tainted)))
    = Ret 0%nat.
Proof.
  split; [ reflexivity | ].
  assert (Hne : INVALID_ENUM webgl_enum <> NO_ERROR (gl_enum debug_sim))
    by discriminate.
  destruct (getContextByVersion_serves_half_bootstrapped debug_sim 0 0 1 tainted
              sim_factory 0%nat (INVALID_ENUM webgl_enum)
              (mkSim 1 [] [(0%nat, INVALID_ENUM webgl_enum)])
              (mkSim 1 [] []) (mkSim 1 [] []) (mkSim 1 [] [])
              eq_refl eq_refl eq_refl eq_refl eq_refl Hne eq_refl eq_refl)
    as [E1 E2].
  rewrite E1. split; [ reflexivity | ]. cbn [snd]. rewrite E2. reflexivity.
Defined.

(** Two WebGL codes and their messages. *)
Lemma getWebGLErrorMessage_distinct_witness :
  (0x0500 <> 0x0501)%Z /\
  Checked.getWebGLErrorMessage quiet_host 0x0500
    <> Checked.getWebGLErrorMessage quiet_host 0x0501.
Proof.
  assert (Hne : (0x0500 <> 0x0501)%Z) by discriminate.
  split; [ exact Hne | ].
  apply (getWebGLErrorMessage_distinct quiet_host _ _ Hne).
Defined.

(** The first revision on a warm module, asked for version 2. *)
Lemma Plain_getContextByVersion_frame_witness :
  (1 <> 2)%Z /\
  contexts (snd (Plain.getContextByVersion quiet_host 3 2 warm)) !! key 1
    = Some 0%nat.
Proof.
  assert (Hne : (1 <> 2)%Z) by discriminate.
  split; [ exact Hne | ].
  destruct (Plain_getContextByVersion_frame quiet_host 3 2 1 warm Hne)
    as [E _].
  etransitivity; [ exact E | vm_compute; reflexivity ].
Defined.

(** The first revision recovering context 0 of the simulation. *)
Lemma Plain_getContextByVersion_recovers_witness :
  contexts lost_silently !! key 1 = Some 0%nat /\
  fst (Plain.getContextByVersion sim 2 1 lost_silently) = Ret 1%nat.
Proof.
  assert (Hc : contexts lost_silently !! key 1 = Some 0%nat)
    by (vm_compute; reflexivity).
  split; [ exact Hc | ].
  rewrite (Plain_getContextByVersion_recovers sim 0 1 lost_silently
             sim_factory ok_cleanup 0%nat 1%nat
             (mkSim 1 [0%nat] []) (mkSim 1 [0%nat] [])
             (mkSim 2 [0%nat] []) (mkSim 2 [0%nat] [])
             eq_refl eq_refl Hc eq_refl eq_refl eq_refl eq_refl).
  reflexivity.
Defined.

(** The first revision with a factory that throws. *)
Lemma Plain_getContextByVersion_factory_throws_witness :
  contextFactory unlucky = Some failing_factory /\
  fst (Plain.getContextByVersion quiet_host 1 1 unlucky) = Throw (Foreign 1).
Proof.
  split; [ reflexivity | ].
  rewrite (Plain_getContextByVersion_factory_throws quiet_host 0 1 unlucky
             failing_factory (Foreign 1) 0%nat eq_refl eq_refl eq_refl).
  reflexivity.
Defined.

(** A freshly loaded module in the browser. *)
Lemma defaults_are_installed_on_first_use_witness :
  ENV_getBool browser_host "IS_BROWSER" = true /\
  contextFactory (snd (Checked.getContextByVersion browser_host 1 1 (initial 0%nat)))
    = Some fresh_factory.
Proof.
  split; [ reflexivity | ].
  apply (defaults_are_installed_on_first_use browser_host 0 1 (initial 0%nat)
           eq_refl).
  reflexivity.
Defined.
